(** * AntiGraph: a complement view on a sparse graph store

    Shallow embedding of the [AntiGraph] class of
    [subclass/antigraph.ipynb] (a subclass of [networkx.Graph] whose report
    methods answer as if the graph were the dense complement of what is
    stored), and the properties of its adjacency layer.

    Python values are modelled as follows.
    - a node is any hashable, atomic identifier: a type with decidable
      equality that is countable;
    - [self.adj], the dict of dicts of the host graph, is the list of its
      items, no key twice: its iteration order is observable (through
      [nodes()] and [adjacency()]); the order of the inner dicts is not, so
      these are [gmap]s;
    - a Python [set] is a [gset]; iterating it is [elements], which stands
      for an order Python leaves open;
    - the class attribute [all_edge_dict] is one mutable dict that every
      derived edge shares: what it holds is a state, which the methods
      that read it take as an argument;
    - a raised exception is the [Raise] branch of a small error monad;
    - a generator is the list of the values it yields when it is drained
      (or the exception that interrupts it). *)

From Stdlib Require Import ZArith.
From stdpp Require Import gmap strings list fin_maps fin_sets.

Local Open Scope Z_scope.

(* ===================================================================== *)
(** ** Python primitives *)
(* ===================================================================== *)

Module Py.

(** The messages of the [NetworkXError]s that can reach a caller. *)
Inductive nx_message (node : Type) : Type :=
  | NodeNotInGraph (n : node)   (* "The node %s is not in the graph." % (n,) *)
  | NbunchNotSequence.          (* "nbunch is not a node or a sequence of nodes." *)

Inductive exn (node : Type) : Type :=
  | KeyError (key : node)
  | NetworkXError (msg : nx_message node).

Inductive result (node A : Type) : Type :=
  | Ok (a : A)
  | Raise (e : exn node).

Arguments NodeNotInGraph {node} n.
Arguments NbunchNotSequence {node}.
Arguments KeyError {node} key.
Arguments NetworkXError {node} msg.
Arguments Ok {node A} a.
Arguments Raise {node A} e.

(** Sequencing: an exception raised by [m] skips [k]. *)
Definition bind {node A B} (k : A → result node B) (m : result node A)
  : result node B :=
  match m with
  | Ok a => k a
  | Raise e => Raise e
  end.

(** [try: body except KeyError: handler] *)
Definition except_KeyError {node A} (body : result node A)
    (handler : result node A) : result node A :=
  match body with
  | Raise (KeyError _) => handler
  | r => r
  end.

Fixpoint for_each {node A B} (f : A → result node B) (l : list A)
  : result node (list B) :=
  match l with
  | [] => Ok []
  | x :: l' => bind (λ y, bind (λ ys, Ok (y :: ys)) (for_each f l')) (f x)
  end.

(** [sum(...)] of Python integers, and [int(b)] for a [bool]. *)
Definition sum (l : list Z) : Z := foldr Z.add 0 l.
Definition int_of_bool (b : bool) : Z := if b then 1 else 0.

End Py.

Import Py.

#[global] Instance result_bind {node} : MBind (result node) := @Py.bind node.
#[global] Instance result_ret {node} : MRet (result node) := @Py.Ok node.

(** *** Dictionaries *)

Section dict.
Context {K : Type} `{!EqDecision K, !Countable K} {V : Type}.

(** A dict whose iteration order is observed: its items in that order, no
    key bound twice. *)
Record odict : Type := Odict {
  items : list (K * V);
  items_NoDup : NoDup items.*1
}.

(** The dict of the given items, once their keys are checked to differ. *)
Definition odict_of (l : list (K * V))
    (Hl : Is_true (bool_decide (NoDup l.*1))) : odict :=
  Odict l (bool_decide_unpack _ Hl).

(** The finite map a dict is, which [d[k]] and [k in d] consult. *)
Definition odict_map (d : odict) : gmap K V := list_to_map (items d).

Definition odict_lookup (d : odict) (k : K) : option V := odict_map d !! k.

(** [d[k]] *)
Definition odict_getitem (d : odict) (k : K) : result K V :=
  match odict_lookup d k with
  | Some v => Ok v
  | None => Raise (KeyError k)
  end.

(** [k in d] *)
Definition odict_contains (d : odict) (k : K) : bool :=
  bool_decide (is_Some (odict_lookup d k)).

(** [iter(d)], [list(d)] *)
Definition odict_keys (d : odict) : list K := (items d).*1.

(** [d[k]], [k in d], [iter(d)], [len(d)] on a dict whose order is not
    observed. *)
Definition dict_getitem (d : gmap K V) (k : K) : result K V :=
  match d !! k with
  | Some v => Ok v
  | None => Raise (KeyError k)
  end.

Definition dict_contains (d : gmap K V) (k : K) : bool :=
  bool_decide (is_Some (d !! k)).

Definition dict_keys (d : gmap K V) : list K := (map_to_list d).*1.

Definition len (d : gmap K V) : Z := Z.of_nat (size d).

(** [{k: v for k in s}] *)
Definition dict_from_keys (s : gset K) (v : V) : gmap K V := gset_to_gmap v s.
End dict.
Arguments odict K V : clear implicits.

(** [d.get(k, dflt)] on an edge attribute dict. *)
Definition dict_get (d : gmap string Z) (k : string) (dflt : Z) : Z :=
  default dflt (d !! k).

(* ===================================================================== *)
(** ** The host graph class, [networkx.Graph] *)
(* ===================================================================== *)

Module Graph.
Section graph.
Context {node : Type} `{!EqDecision node, !Countable node}.

(** The class [AntiGraph] derives from. Of its state the methods below read
    [self.adj] only: node ↦ (neighbour ↦ edge attribute dict). *)
Record t : Type := Build { adj : odict node (gmap node (gmap string Z)) }.

(** The [nbunch] argument: [None], one node, or a container of nodes. *)
Inductive nbunch : Type :=
  | NbNone
  | NbNode (n : node)
  | NbBunch (l : list node).

(** What [degree] returns: an integer for a single node, otherwise an
    iterator, given by what draining it produces. *)
Inductive degree_ret : Type :=
  | DegInt (d : Z)
  | DegIter (drain : result node (list (node * Z))).

(** Modelled from the spec: [self.nodes()] belongs to the host library; it
    enumerates the node identifiers of the store, in the order of
    [self.adj]. *)
Definition nodes (self : t) : list node := odict_keys (adj self).

(** Modelled from the spec: [nbunch in self] is [Graph.__contains__] of the
    host library, the test [nbunch in self.adj], which is [False] for
    [None] and for an unhashable container of nodes. When it holds,
    [nbunch] is a node, which is returned. *)
Definition contains (self : t) (nb : nbunch) : option node :=
  match nb with
  | NbNode n => if odict_contains (adj self) n then Some n else None
  | NbNone | NbBunch _ => None
  end.

(** Modelled from the spec: [self.nbunch_iter(nbunch)] belongs to the host
    library; it filters a caller-supplied container against the known
    nodes, keeping its order. All nodes for [None], the node itself for a
    node of the graph; anything else (an atomic identifier that is not a
    node) cannot be iterated. *)
Definition nbunch_iter (self : t) (nb : nbunch) : result node (list node) :=
  match nb with
  | NbNone => Ok (odict_keys (adj self))
  | NbNode n =>
      if odict_contains (adj self) n then Ok [n]
      else Raise (NetworkXError NbunchNotSequence)
  | NbBunch l => Ok (filter (λ n, odict_contains (adj self) n = true) l)
  end.

(** Modelled from the spec: [Graph.degree] of the host library, which the
    notebook's checks call on the explicit dense graph. The degree of a
    node is the number of its stored neighbours, a self-loop counting
    twice. *)
Definition stored_degree (nbrs : gmap node (gmap string Z)) (n : node) : Z :=
  len nbrs + int_of_bool (dict_contains nbrs n).

Definition degree (self : t) (nb : nbunch) : result node degree_ret :=
  match contains self nb with
  | Some n =>
      nbrs ← odict_getitem (adj self) n;
      Ok (DegInt (stored_degree nbrs n))
  | None =>
      Ok (DegIter (
        ns ← nbunch_iter self nb;
        for_each (λ n, nbrs ← odict_getitem (adj self) n;
                       Ok (n, stored_degree nbrs n)) ns))
  end.
End graph.
Arguments t node {_ _}.
Arguments nbunch node : clear implicits.
Arguments degree_ret node : clear implicits.
End Graph.

(* ===================================================================== *)
(** ** [class AntiGraph(nx.Graph)] *)
(* ===================================================================== *)

Module AntiGraph.
Section antigraph.
Context {node : Type} `{!EqDecision node, !Countable node}.

Local Abbreviation t := (Graph.t node).
Local Abbreviation adj := Graph.adj.

(** [all_edge_dict = {'weight': 1}]: what the class body binds the class
    attribute to. The attribute is one dict object: [single_edge_dict]
    hands it to the host class as the data of every edge it adds, and
    [__getitem__] hands it to the caller as the value of every derived
    edge. A write through any of these reaches the one object, so what it
    holds is part of the state of the program: the methods that read
    [self.all_edge_dict] take it as [record]. The constant below is the
    state in which the class is created. *)
Definition all_edge_dict : gmap string Z := {[ "weight" := 1 ]}.

Definition single_edge_dict (self : t) : gmap string Z := all_edge_dict.
Definition edge_attr_dict_factory := single_edge_dict.

(** [set(self.adj) - set(nbrs) - set([n])], where [nbrs] is [self.adj[n]] *)
Definition dense_set (self : t) (nbrs : gmap node (gmap string Z)) (n : node)
  : gset node :=
  list_to_set (odict_keys (adj self)) ∖ dom nbrs ∖ {[ n ]}.

(** [set(self.nodes()) - set(nbrs) - set([n])] *)
Definition dense_set_nodes (self : t) (nbrs : gmap node (gmap string Z))
    (n : node) : gset node :=
  list_to_set (Graph.nodes self) ∖ dom nbrs ∖ {[ n ]}.

(** [__getitem__], when [self.all_edge_dict] holds [record]. Every value
    of the dict it builds is that one object. *)
Definition getitem_in (record : gmap string Z) (self : t) (n : node)
  : result node (gmap node (gmap string Z)) :=
  nbrs ← odict_getitem (adj self) n;
  Ok (dict_from_keys (dense_set self nbrs n) record).

(** [__getitem__] while the record is as the class body left it. *)
Definition getitem (self : t) (n : node)
  : result node (gmap node (gmap string Z)) :=
  getitem_in all_edge_dict self n.

(** [self[n][v][k] = x], a caller's write to the entry of [v] in what
    [__getitem__(n)] returned. That entry is the record itself: the write
    gives the record a new state, for every edge and every instance. *)
Definition view_setitem (record : gmap string Z) (self : t) (n v : node)
    (k : string) (x : Z) : result node (gmap string Z) :=
  m ← getitem_in record self n;
  _ ← dict_getitem m v;
  Ok (<[ k := x ]> record).

(** [neighbors]. Python leaves the order in which a set is iterated open;
    [elements] stands for it, and what is said of the list below is meant
    up to its order. *)
Definition neighbors (self : t) (n : node) : result node (list node) :=
  except_KeyError
    (nbrs ← odict_getitem (adj self) n;
     Ok (elements (dense_set self nbrs n)))
    (Raise (NetworkXError (NodeNotInGraph n))).

(** [len(nbrs) + (n in nbrs)] *)
Definition unweighted (nbrs : gmap node (gmap string Z)) (n : node) : Z :=
  len nbrs + int_of_bool (dict_contains nbrs n).

(** [sum((nbrs[nbr].get(weight, 1) for nbr in nbrs)) +
     (n in nbrs and nbrs[n].get(weight, 1))] *)
Definition weighted (nbrs : gmap node (gmap string Z)) (n : node)
    (weight : string) : result node Z :=
  ws ← for_each (λ nbr, d ← dict_getitem nbrs nbr;
                        Ok (dict_get d weight 1)) (dict_keys nbrs);
  loop ← (if dict_contains nbrs n
          then d ← dict_getitem nbrs n; Ok (dict_get d weight 1)
          else Ok (int_of_bool false));
  Ok (Py.sum ws + loop).

(** [degree], when [self.all_edge_dict] holds [record]. *)
Definition degree_in (record : gmap string Z) (self : t)
    (nbunch : Graph.nbunch node) (weight : option string)
  : result node (Graph.degree_ret node) :=
  match Graph.contains self nbunch with
  | Some n =>
      sparse ← odict_getitem (adj self) n;
      let nbrs := dict_from_keys (dense_set self sparse n) record in
      match weight with
      | None => Ok (Graph.DegInt (unweighted nbrs n))
      | Some w => d ← weighted nbrs n w; Ok (Graph.DegInt d)
      end
  | None =>
    let nodes_nbrs : result node (list (node * gmap node (gmap string Z))) :=
      match nbunch with
      | Graph.NbNone =>
          for_each (λ n, sparse ← odict_getitem (adj self) n;
                         Ok (n, dict_from_keys (dense_set self sparse n)
                                               record))
                   (Graph.nodes self)
      | _ =>
          ns ← Graph.nbunch_iter self nbunch;
          for_each (λ n, sparse ← odict_getitem (adj self) n;
                         Ok (n, dict_from_keys (dense_set_nodes self sparse n)
                                               record))
                   ns
      end in
    let d_iter : result node (list (node * Z)) :=
      match weight with
      | None =>
          nn ← nodes_nbrs;
          for_each (λ '(n, nbrs), Ok (n, unweighted nbrs n)) nn
      | Some w =>
          nn ← nodes_nbrs;
          for_each (λ '(n, nbrs), d ← weighted nbrs n w; Ok (n, d)) nn
      end in
    Ok (Graph.DegIter d_iter)
  end.

(** [degree] while the record is as the class body left it. *)
Definition degree (self : t) (nbunch : Graph.nbunch node)
    (weight : option string) : result node (Graph.degree_ret node) :=
  degree_in all_edge_dict self nbunch weight.

(** [adjacency]: the value yielded for [n], and the generator drained. *)
Definition adjacency_yield (self : t) (n : node)
  : result node (node * gset node) :=
  nbrs ← odict_getitem (adj self) n;
  Ok (n, dense_set self nbrs n).

Definition adjacency (self : t) : result node (list (node * gset node)) :=
  for_each (adjacency_yield self) (odict_keys (adj self)).
End antigraph.
End AntiGraph.

(** [sum(d for n, d in X.degree(...))], as the notebook's checks compute it:
    defined when [degree] returned an iterator that can be drained. *)
Definition sum_degrees {node} (r : result node (Graph.degree_ret node))
  : option Z :=
  match r with
  | Ok (Graph.DegIter (Ok nds)) => Some (Py.sum nds.*2)
  | _ => None
  end.

(* ===================================================================== *)
(** ** The vocabulary of the specification *)
(* ===================================================================== *)

Module Spec.
Section spec.
Context {node : Type} `{!EqDecision node, !Countable node}.

(** The node universe: the keys of the sparse adjacency map. *)
Definition AllNodes (self : Graph.t node) : gset node :=
  list_to_set (Graph.nodes self).

(** The nodes recorded as adjacent to [n] in the sparse store. *)
Definition SparseSet (self : Graph.t node) (n : node) : gset node :=
  match odict_lookup (Graph.adj self) n with
  | Some nbrs => dom nbrs
  | None => ∅
  end.

(** The derived neighbour set, [AllNodes − SparseSet(n) − {n}]. *)
Definition derived (self : Graph.t node) (n : node) : gset node :=
  AllNodes self ∖ SparseSet self n ∖ {[ n ]}.

(** [len(derivedSet) + (1 if n in derivedSet else 0)] *)
Definition derived_degree (self : Graph.t node) (n : node) : Z :=
  Z.of_nat (size (derived self n))
  + (if bool_decide (n ∈ derived self n) then 1 else 0).

(** A simple graph: no node is its own neighbour, and every neighbour is
    a node of the graph. *)
Definition simple (G : Graph.t node) : Prop :=
  Forall (λ '(n, nbrs), (n ∉ dom nbrs) ∧ (dom nbrs ⊆ AllNodes G))
         (items (Graph.adj G)).

(** [A] stores, at each node of [G], exactly the non-edges of [G]:
    [SparseSet_A(n) = V − {n} − trueAdjacency_G(n)]. *)
Definition stores_non_edges (G A : Graph.t node) : Prop :=
  Forall (λ n, SparseSet A n = AllNodes G ∖ {[ n ]} ∖ SparseSet G n)
         (Graph.nodes G).
End spec.
End Spec.

Import Spec.

(** The graph of the concrete scenario: nodes 0..3, the only stored edge is
    0 -- 1. *)
Definition scenario : Graph.t Z :=
  Graph.Build (odict_of
    [ (0, {[ 1 := AntiGraph.all_edge_dict ]});
      (1, {[ 0 := AntiGraph.all_edge_dict ]});
      (2, ∅);
      (3, ∅) ] I).

(** The dense graph of the scenario, stored explicitly: every pair but
    0 -- 1 is an edge. *)
Definition scenario_dense : Graph.t Z :=
  let e := AntiGraph.all_edge_dict in
  Graph.Build (odict_of
    [ (0, {[ 2 := e; 3 := e ]});
      (1, {[ 2 := e; 3 := e ]});
      (2, {[ 0 := e; 1 := e; 3 := e ]});
      (3, {[ 0 := e; 1 := e; 2 := e ]}) ] I).

(** *** Relations between stores *)

Section store_relations.
Context {node : Type} `{!EqDecision node, !Countable node}.

(** The stored non-edges of [n] that can matter: those to the other nodes
    of the store. *)
Definition non_edges (self : Graph.t node) (n : node) : gset node :=
  (SparseSet self n ∩ AllNodes self) ∖ {[ n ]}.

(** Whenever [v] is stored at [n], [n] is stored at [v]. *)
Definition symmetric_store (self : Graph.t node) : Prop :=
  Forall (λ n, Forall (λ v, v ∈ SparseSet self n → n ∈ SparseSet self v)
                      (Graph.nodes self))
         (Graph.nodes self).

(** Two stores that enumerate the same nodes in the same order and record
    the same non-edges between them. *)
Definition same_non_edges (A B : Graph.t node) : Prop :=
  Graph.nodes A = Graph.nodes B
  ∧ Forall (λ n, non_edges A n = non_edges B n) (Graph.nodes A).

(** [B] records every non-edge [A] records. *)
Definition more_non_edges (A B : Graph.t node) : Prop :=
  Forall (λ n, SparseSet A n ⊆ SparseSet B n) (Graph.nodes A).

(** [D] stores explicitly, at each node of [A], what the view on [A]
    derives there. *)
Definition materialises (D A : Graph.t node) : Prop :=
  Forall (λ n, SparseSet D n = derived A n) (Graph.nodes A).

(** Two results of [neighbors] that agree but for the order in which the
    set is iterated, which Python leaves open. *)
Definition same_up_to_order (r1 r2 : result node (list node)) : Prop :=
  match r1, r2 with
  | Ok l1, Ok l2 => l1 ≡ₚ l2
  | Raise e1, Raise e2 => e1 = e2
  | _, _ => False
  end.
End store_relations.

(** What a derived edge counts for in [degree] under [weight] when the
    shared record holds [record]: [record.get(weight, 1)], and 1 when no
    key is given. *)
Definition edge_weight (record : gmap string Z) (weight : option string) : Z :=
  match weight with
  | None => 1
  | Some k => dict_get record k 1
  end.

(** The scenario again, with a self-loop stored at 0 and at 2. *)
Definition scenario_noisy : Graph.t Z :=
  let e := AntiGraph.all_edge_dict in
  Graph.Build (odict_of
    [ (0, {[ 1 := e; 0 := e ]});
      (1, {[ 0 := e ]});
      (2, {[ 2 := e ]});
      (3, ∅) ] I).

(** One more stored edge than the scenario: 2 -- 3. *)
Definition scenario_sparser : Graph.t Z :=
  let e := AntiGraph.all_edge_dict in
  Graph.Build (odict_of
    [ (0, {[ 1 := e ]});
      (1, {[ 0 := e ]});
      (2, {[ 3 := e ]});
      (3, {[ 2 := e ]}) ] I).

(* ===================================================================== *)
(** ** Properties of the Python primitives *)
(* ===================================================================== *)

Section py_facts.
Context {K : Type} `{!EqDecision K, !Countable K} {V : Type}.
Implicit Types (d : odict K V) (l : list (K * V)) (m : gmap K V) (k : K).

Lemma odict_lookup_None d k : odict_lookup d k = None ↔ k ∉ odict_keys d.
Proof. symmetry. apply not_elem_of_list_to_map. Qed.

Lemma odict_lookup_keys d k : is_Some (odict_lookup d k) ↔ k ∈ odict_keys d.
Proof.
  destruct (odict_lookup d k) as [x|] eqn:Hk.
  - split; [intros _ | eauto].
    destruct (decide (k ∈ odict_keys d)) as [|Hout]; [done|].
    apply odict_lookup_None in Hout. congruence.
  - apply odict_lookup_None in Hk. split; [by intros [? [=]] | done].
Qed.

Lemma odict_lookup_item d k (x : V) : odict_lookup d k = Some x → (k, x) ∈ items d.
Proof. apply elem_of_list_to_map_2. Qed.

(** Iterating a dict visits each of its keys once. *)
Lemma odict_keys_NoDup d : NoDup (odict_keys d).
Proof. apply items_NoDup. Qed.

Lemma odict_contains_keys d k : odict_contains d k = true ↔ k ∈ odict_keys d.
Proof.
  unfold odict_contains. rewrite bool_decide_eq_true. apply odict_lookup_keys.
Qed.

Lemma odict_contains_false d k : odict_contains d k = false ↔ k ∉ odict_keys d.
Proof.
  unfold odict_contains. rewrite bool_decide_eq_false.
  by rewrite odict_lookup_keys.
Qed.

Lemma odict_getitem_Some d k v :
  odict_lookup d k = Some v → odict_getitem d k = Ok v.
Proof. unfold odict_getitem. by intros ->. Qed.

Lemma odict_getitem_None d k :
  odict_lookup d k = None → odict_getitem d k = Raise (KeyError k).
Proof. unfold odict_getitem. by intros ->. Qed.

Lemma for_each_Ok {E A B} (f : A → result E B) (g : A → B) (l : list A) :
  (∀ x, x ∈ l → f x = Ok (g x)) → for_each f l = Ok (g <$> l).
Proof.
  induction l as [|x l IH]; intros Hf; simpl; [done|].
  rewrite Hf by apply list_elem_of_here. simpl.
  rewrite IH; [done|]. intros y Hy. apply Hf. by apply list_elem_of_further.
Qed.

Lemma sum_ones {A} (l : list A) : Py.sum ((λ _, 1) <$> l) = Z.of_nat (length l).
Proof.
  unfold Py.sum. induction l as [|x l IH]; [done|].
  rewrite fmap_cons, length_cons, Nat2Z.inj_succ. simpl. lia.
Qed.

Lemma sum_Permutation (l1 l2 : list Z) : l1 ≡ₚ l2 → Py.sum l1 = Py.sum l2.
Proof. unfold Py.sum. induction 1; simpl in *; lia. Qed.

(** A dict comprehension over a set has that set as its keys. *)
Lemma len_dict_from_keys (s : gset K) (v : V) :
  len (dict_from_keys s v) = Z.of_nat (size s).
Proof.
  unfold len, dict_from_keys.
  by rewrite <-(size_dom (D:=gset K)), dom_gset_to_gmap.
Qed.

Lemma dict_contains_from_keys (s : gset K) (v : V) k :
  dict_contains (dict_from_keys s v) k = bool_decide (k ∈ s).
Proof.
  unfold dict_contains, dict_from_keys. apply bool_decide_ext.
  rewrite lookup_gset_to_gmap. unfold guard. case_decide; simpl.
  - split; eauto.
  - split; [intros [? [=]] | done].
Qed.

Lemma dict_getitem_from_keys (s : gset K) (v : V) k :
  k ∈ s → dict_getitem (dict_from_keys s v) k = Ok v.
Proof.
  intros Hk. unfold dict_getitem, dict_from_keys.
  by rewrite (proj2 (lookup_gset_to_gmap_Some v s k v)).
Qed.

Lemma dict_keys_from_keys (s : gset K) (v : V) k :
  k ∈ dict_keys (dict_from_keys s v) → k ∈ s.
Proof.
  unfold dict_keys, dict_from_keys. intros ([k' v'] & -> & Hkv)%list_elem_of_fmap.
  apply elem_of_map_to_list, lookup_gset_to_gmap_Some in Hkv. tauto.
Qed.

Lemma length_dict_keys m : Z.of_nat (length (dict_keys m)) = len m.
Proof. unfold dict_keys, len. by rewrite length_fmap, length_map_to_list. Qed.
End py_facts.

(* ===================================================================== *)
(** ** The derived neighbour sets *)
(* ===================================================================== *)

Section antigraph_facts.
Context {node : Type} `{!EqDecision node, !Countable node}.
Implicit Types (self G A : Graph.t node) (n v : node).
Implicit Types (nbrs sparse : gmap node (gmap string Z)) (D : gset node).

Local Abbreviation ed := AntiGraph.all_edge_dict.

Lemma node_lookup self n :
  n ∈ Graph.nodes self → ∃ sparse, odict_lookup (Graph.adj self) n = Some sparse.
Proof. intros Hn. by apply odict_lookup_keys. Qed.

Lemma dense_set_derived self n sparse :
  odict_lookup (Graph.adj self) n = Some sparse →
  AntiGraph.dense_set self sparse n = derived self n.
Proof.
  intros Hn. unfold derived, SparseSet, AllNodes, Graph.nodes.
  by rewrite Hn.
Qed.

Lemma dense_set_nodes_derived self n sparse :
  odict_lookup (Graph.adj self) n = Some sparse →
  AntiGraph.dense_set_nodes self sparse n = derived self n.
Proof. intros Hn. unfold derived, SparseSet. by rewrite Hn. Qed.

(** Once [self.adj[n]] is known to be [sparse]: run the lookup and name the
    set difference that follows it. *)
Ltac run_lookup H :=
  rewrite ?(odict_getitem_Some _ _ _ H), ?(odict_getitem_None _ _ H); simpl;
  rewrite ?(dense_set_derived _ _ _ H), ?(dense_set_nodes_derived _ _ _ H).

Lemma not_in_derived self n : n ∉ derived self n.
Proof.
  unfold derived. rewrite elem_of_difference, elem_of_singleton. tauto.
Qed.

Lemma derived_degree_size self n :
  derived_degree self n = Z.of_nat (size (derived self n)).
Proof.
  unfold derived_degree.
  rewrite (bool_decide_eq_false_2 _ (not_in_derived self n)). lia.
Qed.

(** Whatever the key, the shared record answers 1. *)
Lemma all_edge_dict_get (w : string) : dict_get ed w 1 = 1.
Proof.
  unfold dict_get, AntiGraph.all_edge_dict. rewrite lookup_singleton.
  by case_decide.
Qed.

Lemma unweighted_from_keys D n :
  AntiGraph.unweighted (dict_from_keys D ed) n
  = Z.of_nat (size D) + (if bool_decide (n ∈ D) then 1 else 0).
Proof.
  unfold AntiGraph.unweighted.
  by rewrite len_dict_from_keys, dict_contains_from_keys.
Qed.

(** On a dict built over the shared record the weighted sum is the
    unweighted count, also were the node among its own neighbours. *)
Lemma weighted_from_keys D n (w : string) :
  AntiGraph.weighted (dict_from_keys D ed) n w
  = Ok (AntiGraph.unweighted (dict_from_keys D ed) n).
Proof.
  unfold AntiGraph.weighted, AntiGraph.unweighted.
  rewrite (for_each_Ok _ (λ _, 1)); cycle 1.
  { intros k Hk%dict_keys_from_keys.
    rewrite dict_getitem_from_keys by done. simpl.
    by rewrite all_edge_dict_get. }
  simpl. rewrite sum_ones, length_dict_keys, dict_contains_from_keys.
  case_bool_decide as Hn; simpl; [|done].
  rewrite dict_getitem_from_keys by done. simpl.
  by rewrite all_edge_dict_get.
Qed.

Lemma unweighted_derived self n :
  AntiGraph.unweighted (dict_from_keys (derived self n) ed) n
  = derived_degree self n.
Proof. apply unweighted_from_keys. Qed.

(** *** [neighbors] and [__getitem__] *)

Lemma neighbors_Some self n sparse :
  odict_lookup (Graph.adj self) n = Some sparse →
  AntiGraph.neighbors self n = Ok (elements (derived self n)).
Proof.
  intros Hn. unfold AntiGraph.neighbors. by run_lookup Hn.
Qed.

Lemma neighbors_None self n :
  odict_lookup (Graph.adj self) n = None →
  AntiGraph.neighbors self n = Raise (NetworkXError (NodeNotInGraph n)).
Proof.
  intros Hn. unfold AntiGraph.neighbors. by run_lookup Hn.
Qed.

Lemma getitem_Some self n sparse :
  odict_lookup (Graph.adj self) n = Some sparse →
  AntiGraph.getitem self n = Ok (dict_from_keys (derived self n) ed).
Proof.
  intros Hn. unfold AntiGraph.getitem, AntiGraph.getitem_in. by run_lookup Hn.
Qed.

Lemma getitem_None self n :
  odict_lookup (Graph.adj self) n = None →
  AntiGraph.getitem self n = Raise (KeyError n).
Proof.
  intros Hn. unfold AntiGraph.getitem, AntiGraph.getitem_in. by run_lookup Hn.
Qed.

Lemma adjacency_yield_node self n :
  n ∈ Graph.nodes self →
  AntiGraph.adjacency_yield self n = Ok (n, derived self n).
Proof.
  intros [sparse Hs]%node_lookup. unfold AntiGraph.adjacency_yield.
  by run_lookup Hs.
Qed.

(** *** [degree] *)

Lemma degree_single self n (weight : option string) :
  n ∈ Graph.nodes self →
  AntiGraph.degree self (Graph.NbNode n) weight
  = Ok (Graph.DegInt (derived_degree self n)).
Proof.
  intros Hn. destruct (node_lookup _ _ Hn) as [sparse Hs].
  unfold AntiGraph.degree, AntiGraph.degree_in, Graph.contains.
  rewrite (proj2 (odict_contains_keys _ _) Hn). run_lookup Hs.
  destruct weight as [w|].
  - rewrite weighted_from_keys. simpl. by rewrite unweighted_derived.
  - by rewrite unweighted_derived.
Qed.

(** The second stage of the bulk form, [d_iter], over pairs whose dicts
    were built over the shared record. *)
Lemma d_iter_unweighted (ns : list node) (f : node → gset node) :
  for_each (λ '(n, nbrs), Ok (n, AntiGraph.unweighted nbrs n))
           ((λ n, (n, dict_from_keys (f n) ed)) <$> ns)
  = Ok ((λ n, (n, AntiGraph.unweighted (dict_from_keys (f n) ed) n)) <$> ns)
    :> result node _.
Proof.
  rewrite (for_each_Ok _ (λ '(n, nbrs), (n, AntiGraph.unweighted nbrs n))).
  - by rewrite <-list_fmap_compose.
  - by intros [n nbrs] _.
Qed.

Lemma d_iter_weighted (ns : list node) (f : node → gset node) (w : string) :
  for_each (λ '(n, nbrs), d ← AntiGraph.weighted nbrs n w; Ok (n, d))
           ((λ n, (n, dict_from_keys (f n) ed)) <$> ns)
  = Ok ((λ n, (n, AntiGraph.unweighted (dict_from_keys (f n) ed) n)) <$> ns).
Proof.
  rewrite (for_each_Ok _ (λ '(n, nbrs), (n, AntiGraph.unweighted nbrs n))).
  - by rewrite <-list_fmap_compose.
  - intros [n nbrs] (n' & [= -> ->] & _)%list_elem_of_fmap.
    by rewrite weighted_from_keys.
Qed.

Lemma degree_all self (weight : option string) :
  AntiGraph.degree self Graph.NbNone weight
  = Ok (Graph.DegIter
          (Ok ((λ n, (n, derived_degree self n)) <$> Graph.nodes self))).
Proof.
  unfold AntiGraph.degree, AntiGraph.degree_in. simpl.
  rewrite (for_each_Ok _ (λ n, (n, dict_from_keys (derived self n) ed))); cycle 1.
  { intros n [sparse Hs]%node_lookup. by run_lookup Hs. }
  destruct weight as [w|]; simpl.
  - rewrite d_iter_weighted. do 3 f_equal.
    apply list_fmap_ext. intros _ n _. by rewrite unweighted_derived.
  - rewrite d_iter_unweighted. do 3 f_equal.
    apply list_fmap_ext. intros _ n _. by rewrite unweighted_derived.
Qed.

Lemma degree_bunch self (S : list node) (weight : option string) :
  AntiGraph.degree self (Graph.NbBunch S) weight
  = Ok (Graph.DegIter
          (Ok ((λ n, (n, derived_degree self n))
               <$> filter (λ n, odict_contains (Graph.adj self) n = true) S))).
Proof.
  unfold AntiGraph.degree, AntiGraph.degree_in. simpl.
  rewrite (for_each_Ok _ (λ n, (n, dict_from_keys (derived self n) ed))); cycle 1.
  { intros n [Hn%odict_contains_keys _]%list_elem_of_filter.
    destruct (node_lookup self n Hn) as [sparse Hs]. by run_lookup Hs. }
  destruct weight as [w|]; simpl.
  - rewrite d_iter_weighted. do 3 f_equal.
    apply list_fmap_ext. intros _ n _. by rewrite unweighted_derived.
  - rewrite d_iter_unweighted. do 3 f_equal.
    apply list_fmap_ext. intros _ n _. by rewrite unweighted_derived.
Qed.

Lemma filter_members self (S : list node) :
  S ⊆ Graph.nodes self →
  filter (λ n, odict_contains (Graph.adj self) n = true) S = S.
Proof.
  intros HS. induction S as [|n S IH]; [done|].
  rewrite filter_cons_True.
  - f_equal. apply IH. intros v Hv. apply HS. by apply list_elem_of_further.
  - apply odict_contains_keys, HS, list_elem_of_here.
Qed.
End antigraph_facts.

(** *** The dense reference, [Graph.degree] on a stored graph *)

Section dense_facts.
Context {node : Type} `{!EqDecision node, !Countable node}.
Implicit Types (G A : Graph.t node) (n : node).

Lemma simple_lookup G n nbrs :
  simple G → odict_lookup (Graph.adj G) n = Some nbrs →
  (n ∉ dom nbrs) ∧ (dom nbrs ⊆ AllNodes G).
Proof.
  intros HG Hn%odict_lookup_item.
  unfold simple in HG. rewrite Forall_forall in HG. apply (HG _ Hn).
Qed.

(** In a simple graph the stored degree of a node is the number of its
    stored neighbours. *)
Lemma stored_degree_simple G n nbrs :
  simple G → odict_lookup (Graph.adj G) n = Some nbrs →
  Graph.stored_degree nbrs n = Z.of_nat (size (SparseSet G n)).
Proof.
  intros HG Hn. destruct (simple_lookup _ _ _ HG Hn) as [Hloop _].
  unfold Graph.stored_degree, SparseSet, len, dict_contains.
  rewrite Hn, size_dom, bool_decide_eq_false_2; [simpl; lia|].
  by rewrite <-elem_of_dom.
Qed.

Lemma AllNodes_Permutation G A :
  Graph.nodes A ≡ₚ Graph.nodes G → AllNodes A = AllNodes G.
Proof.
  intros HP. apply set_eq. intros v. unfold AllNodes.
  by rewrite !elem_of_list_to_set, HP.
Qed.

(** The complement of the complement: what the view derives from the
    stored non-edges of [G] is the adjacency of [G]. *)
Lemma derived_non_edges G A n :
  Graph.nodes A ≡ₚ Graph.nodes G → simple G → stores_non_edges G A →
  n ∈ Graph.nodes G → derived A n = SparseSet G n.
Proof.
  intros HP HG HA Hn. unfold stores_non_edges in HA.
  rewrite Forall_forall in HA. specialize (HA n Hn).
  unfold derived. rewrite HA, (AllNodes_Permutation _ _ HP).
  destruct (node_lookup _ _ Hn) as [nbrs Hnbrs].
  destruct (simple_lookup _ _ _ HG Hnbrs) as [Hloop Hsub].
  assert (SparseSet G n = dom nbrs) as -> by (unfold SparseSet; by rewrite Hnbrs).
  apply set_eq. intros v.
  rewrite !elem_of_difference, !elem_of_singleton.
  split.
  - intros [[Hv Hnot] Hvn].
    destruct (decide (v ∈ dom nbrs)) as [|Hout]; [done|].
    destruct Hnot. tauto.
  - intros Hv. split_and!; [by apply Hsub | tauto | by intros ->].
Qed.

Lemma dense_degree_single G n nbrs :
  odict_lookup (Graph.adj G) n = Some nbrs →
  Graph.degree G (Graph.NbNode n)
  = Ok (Graph.DegInt (Graph.stored_degree nbrs n)).
Proof.
  intros Hn. unfold Graph.degree, Graph.contains, odict_contains.
  rewrite Hn, bool_decide_eq_true_2 by eauto.
  by rewrite (odict_getitem_Some _ _ _ Hn).
Qed.

Lemma dense_degree_all G :
  simple G →
  Graph.degree G Graph.NbNone
  = Ok (Graph.DegIter
          (Ok ((λ n, (n, Z.of_nat (size (SparseSet G n)))) <$> Graph.nodes G))).
Proof.
  intros HG. unfold Graph.degree. simpl.
  rewrite (for_each_Ok _ (λ n, (n, Z.of_nat (size (SparseSet G n))))); [done|].
  intros n [nbrs Hn]%node_lookup.
  rewrite (odict_getitem_Some _ _ _ Hn). simpl.
  by rewrite (stored_degree_simple _ _ _ HG Hn).
Qed.
End dense_facts.

(* ===================================================================== *)
(** ** The adjacency contract *)
(* ===================================================================== *)

Section contract.
Context {node : Type} `{!EqDecision node, !Countable node}.
Implicit Types (self G A : Graph.t node) (n v : node).
Implicit Types (weight : option string).

(** C1. For a node [n] of the store, [neighbors(n)] produces a finite
    sequence without repetition whose elements, as a set, are
    [AllNodes − SparseSet(n) − {n}]. *)
Theorem neighbors_complement self n :
  n ∈ Graph.nodes self →
  ∃ l, AntiGraph.neighbors self n = Ok l
       ∧ NoDup l
       ∧ list_to_set l = AllNodes self ∖ SparseSet self n ∖ {[ n ]}.
Proof.
  intros [sparse Hs]%node_lookup. exists (elements (derived self n)).
  split_and!.
  - by apply neighbors_Some with sparse.
  - apply NoDup_elements.
  - apply list_to_set_elements_L.
Qed.

(** While the shared record is as the class body left it, [degree(n,
    weight=k)] is [degree(n)] for every key [k], in the single node form
    and in the bulk forms. Once the record has been written to this is
    lost: see [degree_weight_after_write]. *)
Theorem degree_weight_irrelevant self (k : string) :
  (∀ n, n ∈ Graph.nodes self →
     ∃ d, AntiGraph.degree self (Graph.NbNode n) None = Ok (Graph.DegInt d)
          ∧ AntiGraph.degree self (Graph.NbNode n) (Some k) = Ok (Graph.DegInt d))
  ∧ (∃ nds, AntiGraph.degree self Graph.NbNone None = Ok (Graph.DegIter (Ok nds))
            ∧ AntiGraph.degree self Graph.NbNone (Some k)
              = Ok (Graph.DegIter (Ok nds)))
  ∧ (∀ S, ∃ nds,
       AntiGraph.degree self (Graph.NbBunch S) None = Ok (Graph.DegIter (Ok nds))
       ∧ AntiGraph.degree self (Graph.NbBunch S) (Some k)
         = Ok (Graph.DegIter (Ok nds))).
Proof.
  split_and!.
  - intros n Hn. eexists. split; by apply degree_single.
  - eexists. split; apply degree_all.
  - intros S. eexists. split; apply degree_bunch.
Qed.

(** C4. Let [G] be a simple graph and [A] a view on the same nodes that
    stores at each node exactly the non-edges of [G]. Then the degree of
    every node in [A] is its degree in [G], the number of its neighbours
    in [G], and the degree sums over all nodes agree. *)
Theorem degree_matches_dense G A weight :
  Graph.nodes A ≡ₚ Graph.nodes G →
  simple G →
  stores_non_edges G A →
  (∀ n, n ∈ Graph.nodes G →
     AntiGraph.degree A (Graph.NbNode n) weight
     = Ok (Graph.DegInt (Z.of_nat (size (SparseSet G n))))
     ∧ Graph.degree G (Graph.NbNode n)
       = Ok (Graph.DegInt (Z.of_nat (size (SparseSet G n)))))
  ∧ ∃ total, sum_degrees (AntiGraph.degree A Graph.NbNone weight) = Some total
             ∧ sum_degrees (Graph.degree G Graph.NbNone) = Some total.
Proof.
  intros HP HG HA. split.
  - intros n Hn. split.
    + rewrite degree_single by (by rewrite HP).
      by rewrite derived_degree_size, (derived_non_edges G A).
    + destruct (node_lookup _ _ Hn) as [nbrs Hnbrs].
      rewrite (dense_degree_single _ _ _ Hnbrs).
      by rewrite (stored_degree_simple _ _ _ HG Hnbrs).
  - rewrite degree_all, dense_degree_all by done. simpl.
    eexists. split; [|done]. f_equal.
    rewrite <-!list_fmap_compose.
    transitivity (Py.sum ((λ n, Z.of_nat (size (SparseSet G n))) <$> Graph.nodes A)).
    + f_equal. apply list_fmap_ext. intros _ n Hn%list_elem_of_lookup_2. simpl.
      rewrite derived_degree_size, (derived_non_edges G A); try done.
      by rewrite <-HP.
    + apply sum_Permutation. by apply fmap_Permutation.
Qed.

(** C5. The bulk form over an explicit container [S] of nodes of the store
    yields one pair per member of [S], in the order of [S], each degree
    being taken against the whole node universe of the store; the default
    form yields one pair per node in the order in which the store
    enumerates its nodes, each once. *)
Theorem degree_bulk_universe self (S : list node) weight :
  S ⊆ Graph.nodes self →
  AntiGraph.degree self (Graph.NbBunch S) weight
  = Ok (Graph.DegIter (Ok ((λ n,
        (n, Z.of_nat (size (AllNodes self ∖ SparseSet self n ∖ {[ n ]}))
            + (if bool_decide (n ∈ AllNodes self ∖ SparseSet self n ∖ {[ n ]})
               then 1 else 0))) <$> S)))
  ∧ AntiGraph.degree self Graph.NbNone weight
    = Ok (Graph.DegIter (Ok ((λ n,
        (n, Z.of_nat (size (AllNodes self ∖ SparseSet self n ∖ {[ n ]}))
            + (if bool_decide (n ∈ AllNodes self ∖ SparseSet self n ∖ {[ n ]})
               then 1 else 0))) <$> Graph.nodes self)))
  ∧ NoDup (Graph.nodes self).
Proof.
  intros HS. split_and!.
  - by rewrite degree_bunch, filter_members.
  - apply degree_all.
  - apply odict_keys_NoDup.
Qed.

(** C6. [adjacency()] yields, for each node of the store in the store's
    order, the node paired with [AllNodes − SparseSet(n) − {n}]; the store
    enumerates each node once, and the set is computed from the store at
    each node. *)
Theorem adjacency_pairs self :
  AntiGraph.adjacency self
  = Ok ((λ n, (n, AllNodes self ∖ SparseSet self n ∖ {[ n ]}))
        <$> odict_keys (Graph.adj self))
  ∧ NoDup (odict_keys (Graph.adj self))
  ∧ Forall (λ n, AntiGraph.adjacency_yield self n
                 = Ok (n, AllNodes self ∖ SparseSet self n ∖ {[ n ]}))
           (odict_keys (Graph.adj self)).
Proof.
  split_and!.
  - unfold AntiGraph.adjacency. apply for_each_Ok, adjacency_yield_node.
  - apply odict_keys_NoDup.
  - apply Forall_forall, adjacency_yield_node.
Qed.

(** C7. [neighbors(n)] raises the [NetworkXError] for an unknown node
    exactly when [n] is not a node of the store, and raises nothing else;
    for a node stored with an empty set it returns the other nodes. *)
Theorem neighbors_not_found_iff self n :
  (AntiGraph.neighbors self n = Raise (NetworkXError (NodeNotInGraph n))
   ↔ n ∉ Graph.nodes self)
  ∧ ((∃ e, AntiGraph.neighbors self n = Raise e) ↔ n ∉ Graph.nodes self)
  ∧ (odict_lookup (Graph.adj self) n = Some ∅ →
     AntiGraph.neighbors self n = Ok (elements (AllNodes self ∖ {[ n ]}))).
Proof.
  destruct (odict_lookup (Graph.adj self) n) as [sparse|] eqn:Hs.
  - assert (n ∈ Graph.nodes self) as Hn by (apply odict_lookup_keys; eauto).
    rewrite (neighbors_Some _ _ _ Hs). split_and!.
    + split; [done | by intros []].
    + split; [by intros [e ?] | by intros []].
    + intros [= ->]. do 2 f_equal. unfold derived, SparseSet.
      rewrite Hs, dom_empty_L. apply set_eq. intros v.
      rewrite !elem_of_difference, elem_of_empty. tauto.
  - assert (n ∉ Graph.nodes self) as Hn by (by apply odict_lookup_None).
    rewrite (neighbors_None _ _ Hs). split_and!; [done | | done].
    split; [done | eauto].
Qed.

(** C8, as the code has it. [view[n]] succeeds on the nodes of the store,
    as [neighbors] does; on any other [n] it fails with the [KeyError] of
    the failed lookup, where [neighbors] raises its [NetworkXError]. *)
Theorem getitem_domain self n :
  (n ∈ Graph.nodes self ↔ ∃ m, AntiGraph.getitem self n = Ok m)
  ∧ ((∃ m, AntiGraph.getitem self n = Ok m)
     ↔ (∃ l, AntiGraph.neighbors self n = Ok l))
  ∧ (n ∉ Graph.nodes self →
     AntiGraph.getitem self n = Raise (KeyError n)
     ∧ AntiGraph.neighbors self n = Raise (NetworkXError (NodeNotInGraph n))).
Proof.
  destruct (odict_lookup (Graph.adj self) n) as [sparse|] eqn:Hs.
  - assert (n ∈ Graph.nodes self) as Hn by (apply odict_lookup_keys; eauto).
    rewrite (getitem_Some _ _ _ Hs), (neighbors_Some _ _ _ Hs).
    split_and!; [split; eauto | split; eauto | by intros []].
  - assert (n ∉ Graph.nodes self) as Hn by (by apply odict_lookup_None).
    rewrite (getitem_None _ _ Hs), (neighbors_None _ _ Hs).
    split_and!; [| | done].
    + split; [done | by intros [m ?]].
    + split; by intros [? ?].
Qed.

(** While the shared record is as the class body left it, [view[n]] for a
    node [n] of the store is a dict whose keys are
    [AllNodes − SparseSet(n) − {n}] and whose every value is
    [{weight: 1}]. Once the record has been written to the values are what
    was written: see [getitem_after_write]. *)
Theorem getitem_unit_weight self n :
  n ∈ Graph.nodes self →
  ∃ m, AntiGraph.getitem self n = Ok m
       ∧ dom m = AllNodes self ∖ SparseSet self n ∖ {[ n ]}
       ∧ (∀ v, v ∈ AllNodes self ∖ SparseSet self n ∖ {[ n ]} →
            m !! v = Some {[ "weight" := 1 ]})
       ∧ (∀ v d, m !! v = Some d →
            d = {[ "weight" := 1 ]} ∧ dict_get d "weight" 1 = 1).
Proof.
  intros [sparse Hs]%node_lookup. eexists. split; [by eapply getitem_Some|].
  unfold dict_from_keys. split_and!.
  - apply dom_gset_to_gmap.
  - intros v Hv. by apply lookup_gset_to_gmap_Some.
  - intros v d [_ <-]%lookup_gset_to_gmap_Some. split; [done|].
    apply all_edge_dict_get.
Qed.

(** C10. A node of the store is never in its own derived neighbour set,
    so the test [n in nbrs] of [degree] is false on each of the dicts it is
    applied to and the degree, in the single node form and in the bulk
    forms, is the size of the derived set. *)
Theorem self_loop_adjustment_dead self n weight :
  n ∈ Graph.nodes self →
  (n ∉ AllNodes self ∖ SparseSet self n ∖ {[ n ]})
  ∧ (∀ sparse, odict_lookup (Graph.adj self) n = Some sparse →
       dict_contains (dict_from_keys (AntiGraph.dense_set self sparse n)
                                     AntiGraph.all_edge_dict) n = false
       ∧ dict_contains (dict_from_keys (AntiGraph.dense_set_nodes self sparse n)
                                       AntiGraph.all_edge_dict) n = false)
  ∧ AntiGraph.degree self (Graph.NbNode n) weight
    = Ok (Graph.DegInt
            (Z.of_nat (size (AllNodes self ∖ SparseSet self n ∖ {[ n ]}))))
  ∧ (∃ nds, AntiGraph.degree self Graph.NbNone weight
            = Ok (Graph.DegIter (Ok nds))
            ∧ ∀ d, (n, d) ∈ nds →
                d = Z.of_nat (size (AllNodes self ∖ SparseSet self n ∖ {[ n ]})))
  ∧ (∀ S, ∃ nds, AntiGraph.degree self (Graph.NbBunch S) weight
                 = Ok (Graph.DegIter (Ok nds))
                 ∧ ∀ d, (n, d) ∈ nds →
                     d = Z.of_nat
                           (size (AllNodes self ∖ SparseSet self n ∖ {[ n ]}))).
Proof.
  intros Hn. split_and!.
  - apply not_in_derived.
  - intros sparse Hs.
    rewrite (dense_set_derived _ _ _ Hs), (dense_set_nodes_derived _ _ _ Hs).
    rewrite dict_contains_from_keys.
    split; apply bool_decide_eq_false_2, not_in_derived.
  - rewrite degree_single by done. by rewrite derived_degree_size.
  - eexists. split; [apply degree_all|].
    intros d (n' & [= <- ->] & _)%list_elem_of_fmap. apply derived_degree_size.
  - intros S. eexists. split; [apply degree_bunch|].
    intros d (n' & [= <- ->] & _)%list_elem_of_fmap. apply derived_degree_size.
Qed.
End contract.

(* ===================================================================== *)
(** ** The concrete scenario *)
(* ===================================================================== *)

(** C2. For a node [n] of the store, [degree(n)] without a weight key is
    [len(derivedSet) + (1 if n in derivedSet else 0)]; in the scenario the
    degrees are 2, 2, 3 and 3, and they sum to 10. *)
Theorem degree_single_formula :
  (∀ (node : Type) `{!EqDecision node, !Countable node}
     (self : Graph.t node) (n : node),
     n ∈ Graph.nodes self →
     AntiGraph.degree self (Graph.NbNode n) None
     = Ok (Graph.DegInt
             (Z.of_nat (size (AllNodes self ∖ SparseSet self n ∖ {[ n ]}))
              + (if bool_decide (n ∈ AllNodes self ∖ SparseSet self n ∖ {[ n ]})
                 then 1 else 0))))
  ∧ AntiGraph.degree scenario (Graph.NbNode 0) None = Ok (Graph.DegInt 2)
  ∧ AntiGraph.degree scenario (Graph.NbNode 1) None = Ok (Graph.DegInt 2)
  ∧ AntiGraph.degree scenario (Graph.NbNode 2) None = Ok (Graph.DegInt 3)
  ∧ AntiGraph.degree scenario (Graph.NbNode 3) None = Ok (Graph.DegInt 3)
  ∧ AntiGraph.degree scenario Graph.NbNone None
    = Ok (Graph.DegIter (Ok [(0, 2); (1, 2); (2, 3); (3, 3)]))
  ∧ sum_degrees (AntiGraph.degree scenario Graph.NbNone None) = Some 10.
Proof.
  split; [|by vm_compute].
  intros node ?? self n Hn. by apply degree_single.
Qed.

Lemma scenario_node_0 : 0 ∈ Graph.nodes scenario.
Proof. apply (bool_decide_unpack _); by vm_compute. Defined.

Lemma scenario_node_2 : 2 ∈ Graph.nodes scenario.
Proof. apply (bool_decide_unpack _); by vm_compute. Defined.

Lemma scenario_not_node_7 : 7 ∉ Graph.nodes scenario.
Proof. apply (bool_decide_unpack _); by vm_compute. Defined.

Lemma scenario_bunch : [2; 0] ⊆ Graph.nodes scenario.
Proof. apply (bool_decide_unpack _); by vm_compute. Defined.

Lemma degree_single_formula_witness :
  AntiGraph.degree scenario (Graph.NbNode 2) None
  = Ok (Graph.DegInt
          (Z.of_nat (size (AllNodes scenario ∖ SparseSet scenario 2 ∖ {[ 2 ]}))
           + (if bool_decide (2 ∈ AllNodes scenario ∖ SparseSet scenario 2 ∖ {[ 2 ]})
              then 1 else 0))).
Proof. apply (proj1 degree_single_formula Z _ _ scenario 2), scenario_node_2. Defined.

Lemma neighbors_complement_witness :
  ∃ l, AntiGraph.neighbors scenario 0 = Ok l
       ∧ NoDup l
       ∧ list_to_set l = AllNodes scenario ∖ SparseSet scenario 0 ∖ {[ 0 ]}.
Proof. apply (neighbors_complement scenario 0), scenario_node_0. Defined.

Lemma degree_weight_irrelevant_witness :
  ∃ d, AntiGraph.degree scenario (Graph.NbNode 2) None = Ok (Graph.DegInt d)
       ∧ AntiGraph.degree scenario (Graph.NbNode 2) (Some "cost")
         = Ok (Graph.DegInt d).
Proof.
  apply (proj1 (degree_weight_irrelevant scenario "cost") 2), scenario_node_2.
Defined.

Lemma scenario_dense_simple : simple scenario_dense.
Proof. repeat constructor; apply (bool_decide_unpack _); by vm_compute. Defined.

Lemma scenario_stores_non_edges : stores_non_edges scenario_dense scenario.
Proof. repeat constructor. Defined.

Lemma degree_matches_dense_witness :
  (∀ n, n ∈ Graph.nodes scenario_dense →
     AntiGraph.degree scenario (Graph.NbNode n) None
     = Ok (Graph.DegInt (Z.of_nat (size (SparseSet scenario_dense n))))
     ∧ Graph.degree scenario_dense (Graph.NbNode n)
       = Ok (Graph.DegInt (Z.of_nat (size (SparseSet scenario_dense n)))))
  ∧ ∃ total, sum_degrees (AntiGraph.degree scenario Graph.NbNone None) = Some total
             ∧ sum_degrees (Graph.degree scenario_dense Graph.NbNone) = Some total.
Proof.
  apply (degree_matches_dense scenario_dense scenario None).
  - reflexivity.
  - exact scenario_dense_simple.
  - exact scenario_stores_non_edges.
Defined.

Lemma degree_bulk_universe_witness :
  AntiGraph.degree scenario (Graph.NbBunch [2; 0]) None
  = Ok (Graph.DegIter (Ok ((λ n,
        (n, Z.of_nat (size (AllNodes scenario ∖ SparseSet scenario n ∖ {[ n ]}))
            + (if bool_decide (n ∈ AllNodes scenario ∖ SparseSet scenario n ∖ {[ n ]})
               then 1 else 0))) <$> [2; 0])))
  ∧ AntiGraph.degree scenario Graph.NbNone None
    = Ok (Graph.DegIter (Ok ((λ n,
        (n, Z.of_nat (size (AllNodes scenario ∖ SparseSet scenario n ∖ {[ n ]}))
            + (if bool_decide (n ∈ AllNodes scenario ∖ SparseSet scenario n ∖ {[ n ]})
               then 1 else 0))) <$> Graph.nodes scenario)))
  ∧ NoDup (Graph.nodes scenario).
Proof. apply (degree_bulk_universe scenario [2; 0] None), scenario_bunch. Defined.

(** Node 2 is stored with an empty set: it is isolated in the store, and
    adjacent to every other node in the view. *)
Lemma neighbors_not_found_iff_witness :
  AntiGraph.neighbors scenario 2 = Ok (elements (AllNodes scenario ∖ {[ 2 ]})).
Proof. by apply (neighbors_not_found_iff scenario 2). Defined.

(** C8, as stated, fails on the scenario at 7, which is not a node:
    [view[7]] raises [KeyError], and no [NetworkXError]. *)
Lemma getitem_absent_raises_KeyError :
  (7 ∉ Graph.nodes scenario)
  ∧ AntiGraph.getitem scenario 7 = Raise (KeyError 7)
  ∧ AntiGraph.neighbors scenario 7 = Raise (NetworkXError (NodeNotInGraph 7))
  ∧ (∀ msg, AntiGraph.getitem scenario 7 ≠ Raise (NetworkXError msg)).
Proof.
  split; [exact scenario_not_node_7|]. by split_and!; [vm_compute..|intros msg].
Qed.

Lemma getitem_domain_witness :
  AntiGraph.getitem scenario 7 = Raise (KeyError 7)
  ∧ AntiGraph.neighbors scenario 7 = Raise (NetworkXError (NodeNotInGraph 7)).
Proof. apply (getitem_domain scenario 7), scenario_not_node_7. Defined.

Lemma getitem_unit_weight_witness :
  ∃ m, AntiGraph.getitem scenario 2 = Ok m
       ∧ dom m = AllNodes scenario ∖ SparseSet scenario 2 ∖ {[ 2 ]}
       ∧ (∀ v, v ∈ AllNodes scenario ∖ SparseSet scenario 2 ∖ {[ 2 ]} →
            m !! v = Some {[ "weight" := 1 ]})
       ∧ (∀ v d, m !! v = Some d →
            d = {[ "weight" := 1 ]} ∧ dict_get d "weight" 1 = 1).
Proof. apply (getitem_unit_weight scenario 2), scenario_node_2. Defined.

Lemma self_loop_adjustment_dead_witness :
  AntiGraph.degree scenario (Graph.NbNode 2) (Some "weight")
  = Ok (Graph.DegInt
          (Z.of_nat (size (AllNodes scenario ∖ SparseSet scenario 2 ∖ {[ 2 ]})))).
Proof.
  apply (self_loop_adjustment_dead scenario 2 (Some "weight")), scenario_node_2.
Defined.

(** The derived neighbour sets of the scenario. *)
Example scenario_adjacency :
  AntiGraph.adjacency scenario
  = Ok [ (0, {[ 2; 3 ]}); (1, {[ 2; 3 ]}); (2, {[ 0; 1; 3 ]}); (3, {[ 0; 1; 2 ]}) ].
Proof. by vm_compute. Qed.

(** The checks of the notebook's last cell, on the scenario: one node, all
    nodes, all nodes with the key ['weight'], and a list of nodes. *)
Example scenario_notebook_checks :
  Graph.degree scenario_dense (Graph.NbNode 0)
  = AntiGraph.degree scenario (Graph.NbNode 0) None
  ∧ sum_degrees (Graph.degree scenario_dense Graph.NbNone)
    = sum_degrees (AntiGraph.degree scenario Graph.NbNone None)
  ∧ sum_degrees (AntiGraph.degree scenario Graph.NbNone None)
    = sum_degrees (AntiGraph.degree scenario Graph.NbNone (Some "weight"))
  ∧ sum_degrees (Graph.degree scenario_dense (Graph.NbBunch [1; 2; 3]))
    = sum_degrees (AntiGraph.degree scenario (Graph.NbBunch [1; 2; 3]) None).
Proof. by vm_compute. Qed.

(* ===================================================================== *)
(** ** Beyond the contract: how the methods fit together *)
(* ===================================================================== *)

Section view_facts.
Context {node : Type} `{!EqDecision node, !Countable node}.
Implicit Types (self A B D G : Graph.t node) (n v : node).
Implicit Types (weight : option string).

Lemma derived_elem self n v :
  v ∈ derived self n ↔ v ∈ Graph.nodes self ∧ (v ∉ SparseSet self n) ∧ v ≠ n.
Proof.
  unfold derived, AllNodes.
  rewrite !elem_of_difference, elem_of_list_to_set, elem_of_singleton. tauto.
Qed.

Lemma derived_non_edges_diff self n :
  derived self n = (AllNodes self ∖ {[ n ]}) ∖ non_edges self n.
Proof.
  apply set_eq. intros v. unfold derived, non_edges.
  rewrite !elem_of_difference, elem_of_intersection, elem_of_singleton.
  split; [tauto|]. intros [[Hv Hvn] Hnot]. split_and!; try done.
  intros Hs. apply Hnot. tauto.
Qed.

(** What the methods return when they return. *)
Lemma neighbors_Ok_inv self n l :
  AntiGraph.neighbors self n = Ok l →
  n ∈ Graph.nodes self ∧ l = elements (derived self n).
Proof.
  destruct (odict_lookup (Graph.adj self) n) as [sparse|] eqn:Hs.
  - rewrite (neighbors_Some _ _ _ Hs). intros [= <-]. split; [|done].
    apply odict_lookup_keys. eauto.
  - by rewrite (neighbors_None _ _ Hs).
Qed.

Lemma neighbors_node self n :
  n ∈ Graph.nodes self →
  AntiGraph.neighbors self n = Ok (elements (derived self n)).
Proof. intros [sparse Hs]%node_lookup. by apply neighbors_Some with sparse. Qed.

Lemma getitem_node self n :
  n ∈ Graph.nodes self →
  AntiGraph.getitem self n
  = Ok (dict_from_keys (derived self n) AntiGraph.all_edge_dict).
Proof. intros [sparse Hs]%node_lookup. by apply getitem_Some with sparse. Qed.

Lemma adjacency_all self :
  AntiGraph.adjacency self
  = Ok ((λ n, (n, derived self n)) <$> Graph.nodes self).
Proof. unfold AntiGraph.adjacency. apply for_each_Ok, adjacency_yield_node. Qed.

Lemma size_AllNodes self : size (AllNodes self) = length (Graph.nodes self).
Proof. apply size_list_to_set, odict_keys_NoDup. Qed.

Lemma non_edges_bound self n :
  n ∈ Graph.nodes self →
  (size (non_edges self n) + size (derived self n) + 1
   = length (Graph.nodes self))%nat.
Proof.
  intros Hn. rewrite <-size_AllNodes.
  assert (n ∈ AllNodes self) as HV by (by apply elem_of_list_to_set).
  assert (non_edges self n ⊆ AllNodes self ∖ {[ n ]}) as Hsub.
  { intros v. unfold non_edges.
    rewrite !elem_of_difference, elem_of_intersection. tauto. }
  rewrite derived_non_edges_diff, (size_difference _ _ Hsub).
  assert (size (AllNodes self ∖ {[ n ]}) + 1 = size (AllNodes self))%nat as HVn.
  { rewrite size_difference, size_singleton.
    - assert (size (AllNodes self) ≠ 0)%nat; [|lia].
      intros H0%size_empty_inv. by apply (not_elem_of_empty (C:=gset node) n), H0.
    - by apply singleton_subseteq_l. }
  apply subseteq_size in Hsub. lia.
Qed.

Lemma derived_degree_count self n :
  n ∈ Graph.nodes self →
  derived_degree self n
  = Z.of_nat (length (Graph.nodes self)) - 1 - Z.of_nat (size (non_edges self n)).
Proof.
  intros Hn. rewrite derived_degree_size.
  pose proof (non_edges_bound self n Hn). lia.
Qed.
End view_facts.

(** *** The state of the shared record *)

Section state_facts.
Context {node : Type} `{!EqDecision node, !Countable node}.
Implicit Types (self : Graph.t node) (n v : node) (D : gset node).
Implicit Types (record : gmap string Z) (weight : option string).

Lemma sum_const {A} (c : Z) (l : list A) :
  Py.sum ((λ _, c) <$> l) = Z.of_nat (length l) * c.
Proof.
  unfold Py.sum. induction l as [|x l IH]; [done|].
  rewrite fmap_cons, length_cons, Nat2Z.inj_succ. cbn [foldr]. lia.
Qed.

Lemma unweighted_record record D n :
  AntiGraph.unweighted (dict_from_keys D record) n
  = Z.of_nat (size D) + (if bool_decide (n ∈ D) then 1 else 0).
Proof.
  unfold AntiGraph.unweighted.
  by rewrite len_dict_from_keys, dict_contains_from_keys.
Qed.

(** Every entry of the dict is the record, so every term of the sum is
    what the record answers. *)
Lemma weighted_record record D n (w : string) :
  AntiGraph.weighted (dict_from_keys D record) n w
  = Ok (Z.of_nat (size D) * dict_get record w 1
        + (if bool_decide (n ∈ D) then dict_get record w 1 else 0)).
Proof.
  unfold AntiGraph.weighted.
  rewrite (for_each_Ok _ (λ _, dict_get record w 1)); cycle 1.
  { intros k Hk%dict_keys_from_keys.
    by rewrite dict_getitem_from_keys. }
  simpl. rewrite sum_const, length_dict_keys, len_dict_from_keys.
  rewrite dict_contains_from_keys.
  case_bool_decide as Hn; simpl; [|done].
  by rewrite dict_getitem_from_keys.
Qed.

Lemma getitem_in_node record self n :
  n ∈ Graph.nodes self →
  AntiGraph.getitem_in record self n
  = Ok (dict_from_keys (derived self n) record).
Proof.
  intros [sparse Hs]%node_lookup. unfold AntiGraph.getitem_in.
  rewrite (odict_getitem_Some _ _ _ Hs). simpl.
  by rewrite (dense_set_derived _ _ _ Hs).
Qed.

Lemma getitem_in_absent record self n :
  n ∉ Graph.nodes self →
  AntiGraph.getitem_in record self n = Raise (KeyError n).
Proof.
  intros Hn%odict_lookup_None. unfold AntiGraph.getitem_in.
  by rewrite (odict_getitem_None _ _ Hn).
Qed.

(** The degree is the number of derived neighbours times what the record
    answers for the key. *)
Lemma degree_in_single record self n weight :
  n ∈ Graph.nodes self →
  AntiGraph.degree_in record self (Graph.NbNode n) weight
  = Ok (Graph.DegInt
          (Z.of_nat (size (derived self n)) * edge_weight record weight)).
Proof.
  intros Hn. destruct (node_lookup _ _ Hn) as [sparse Hs].
  unfold AntiGraph.degree_in, Graph.contains.
  rewrite (proj2 (odict_contains_keys _ _) Hn).
  rewrite (odict_getitem_Some _ _ _ Hs). simpl.
  rewrite (dense_set_derived _ _ _ Hs).
  pose proof (not_in_derived self n) as Hout.
  destruct weight as [w|]; simpl.
  - rewrite weighted_record, bool_decide_eq_false_2 by done. simpl.
    do 2 f_equal. lia.
  - rewrite unweighted_record, bool_decide_eq_false_2 by done.
    do 2 f_equal. lia.
Qed.

Lemma degree_in_absent record self n weight :
  n ∉ Graph.nodes self →
  AntiGraph.degree_in record self (Graph.NbNode n) weight
  = Ok (Graph.DegIter (Raise (NetworkXError NbunchNotSequence))).
Proof.
  intros Hn%odict_contains_false.
  unfold AntiGraph.degree_in, Graph.contains, Graph.nbunch_iter. rewrite Hn.
  by destruct weight.
Qed.

Lemma d_iter_record record self (ns : list node) weight :
  match weight with
  | None =>
      for_each (λ '(n, nbrs), Ok (n, AntiGraph.unweighted nbrs n))
               ((λ n, (n, dict_from_keys (derived self n) record)) <$> ns)
  | Some w =>
      for_each (λ '(n, nbrs), d ← AntiGraph.weighted nbrs n w; Ok (n, d))
               ((λ n, (n, dict_from_keys (derived self n) record)) <$> ns)
  end
  = Ok ((λ n, (n, Z.of_nat (size (derived self n)) * edge_weight record weight))
        <$> ns).
Proof.
  destruct weight as [w|]; simpl.
  - rewrite (for_each_Ok _
      (λ '(n, _), (n, Z.of_nat (size (derived self n)) * dict_get record w 1))).
    + by rewrite <-list_fmap_compose.
    + intros [n nbrs] (n' & [= -> ->] & _)%list_elem_of_fmap.
      rewrite weighted_record, bool_decide_eq_false_2 by apply not_in_derived.
      simpl. do 2 f_equal. lia.
  - rewrite (for_each_Ok _
      (λ '(n, _), (n, Z.of_nat (size (derived self n)) * 1))).
    + by rewrite <-list_fmap_compose.
    + intros [n nbrs] (n' & [= -> ->] & _)%list_elem_of_fmap.
      rewrite unweighted_record, bool_decide_eq_false_2 by apply not_in_derived.
      do 2 f_equal. lia.
Qed.

Lemma degree_in_all record self weight :
  AntiGraph.degree_in record self Graph.NbNone weight
  = Ok (Graph.DegIter (Ok ((λ n,
          (n, Z.of_nat (size (derived self n)) * edge_weight record weight))
        <$> Graph.nodes self))).
Proof.
  unfold AntiGraph.degree_in. simpl.
  rewrite (for_each_Ok _ (λ n, (n, dict_from_keys (derived self n) record)));
    cycle 1.
  { intros n [sparse Hs]%node_lookup.
    rewrite (odict_getitem_Some _ _ _ Hs). simpl.
    by rewrite (dense_set_derived _ _ _ Hs). }
  pose proof (d_iter_record record self (Graph.nodes self) weight) as Hd.
  destruct weight as [w|]; simpl in *; by rewrite Hd.
Qed.

Lemma degree_in_bunch record self (S : list node) weight :
  AntiGraph.degree_in record self (Graph.NbBunch S) weight
  = Ok (Graph.DegIter (Ok ((λ n,
          (n, Z.of_nat (size (derived self n)) * edge_weight record weight))
        <$> filter (λ n, n ∈ Graph.nodes self) S))).
Proof.
  unfold AntiGraph.degree_in. simpl.
  rewrite (list_filter_iff _ (λ n, n ∈ Graph.nodes self));
    [|intros n; apply odict_contains_keys].
  rewrite (for_each_Ok _ (λ n, (n, dict_from_keys (derived self n) record)));
    cycle 1.
  { intros n [[sparse Hs]%node_lookup _]%list_elem_of_filter.
    rewrite (odict_getitem_Some _ _ _ Hs). simpl.
    by rewrite (dense_set_nodes_derived _ _ _ Hs). }
  pose proof (d_iter_record record self
                (filter (λ n, n ∈ Graph.nodes self) S) weight) as Hd.
  destruct weight as [w|]; simpl in *; by rewrite Hd.
Qed.

(** Without a weight key the record is not consulted: what [degree]
    returns is the same in every state of it. *)
Lemma degree_in_unweighted record self (nbunch : Graph.nbunch node) :
  AntiGraph.degree_in record self nbunch None
  = AntiGraph.degree self nbunch None.
Proof.
  unfold AntiGraph.degree. destruct nbunch as [|n|S].
  - by rewrite !degree_in_all.
  - destruct (decide (n ∈ Graph.nodes self)) as [Hn|Hn].
    + by rewrite !degree_in_single.
    + by rewrite !degree_in_absent.
  - by rewrite !degree_in_bunch.
Qed.
End state_facts.

Section methods_agree.
Context {node : Type} `{!EqDecision node, !Countable node}.
Implicit Types (self A B D G : Graph.t node) (n v : node).
Implicit Types (weight : option string).

(** X1. Whatever [neighbors(n)] yields is a node of the store other than
    [n]: asking for its neighbours, or for its entry of the view, does not
    raise. A traversal that starts in the store stays in it. *)
Theorem neighbors_closed self n (l : list node) :
  AntiGraph.neighbors self n = Ok l →
  ∀ v, v ∈ l →
    v ≠ n
    ∧ v ∈ Graph.nodes self
    ∧ (∃ l', AntiGraph.neighbors self v = Ok l')
    ∧ (∃ m, AntiGraph.getitem self v = Ok m).
Proof.
  intros [Hn ->]%neighbors_Ok_inv v Hv.
  apply elem_of_elements, derived_elem in Hv as (Hv & _ & Hvn).
  split_and!; [done | done | |].
  - eexists. by apply neighbors_node.
  - eexists. by apply getitem_node.
Qed.

(** X2. In a store that records its edges in both directions, the view
    is undirected: [v] is among the neighbours of [n] exactly when [n] is
    among those of [v]. *)
Theorem neighbors_symmetric self n v :
  symmetric_store self →
  n ∈ Graph.nodes self →
  v ∈ Graph.nodes self →
  ∃ ln lv, AntiGraph.neighbors self n = Ok ln
           ∧ AntiGraph.neighbors self v = Ok lv
           ∧ (v ∈ ln ↔ n ∈ lv).
Proof.
  intros Hsym Hn Hv. do 2 eexists.
  split; [by apply neighbors_node|]. split; [by apply neighbors_node|].
  unfold symmetric_store in Hsym. rewrite Forall_forall in Hsym.
  pose proof (Hsym n Hn) as Hnv. pose proof (Hsym v Hv) as Hvn.
  rewrite Forall_forall in Hnv, Hvn.
  specialize (Hnv v Hv). specialize (Hvn n Hn).
  rewrite !elem_of_elements, !derived_elem.
  split; intros (_ & Hout & Hne); split_and!; try done; try tauto;
    by intros ->.
Qed.

(** X3. The three ways of reading the neighbourhood of a node of the store
    agree: the keys of [view[n]] are what [neighbors(n)] yields, and
    [adjacency()] pairs [n] with that set and with no other. *)
Theorem neighbourhood_views_agree self n :
  n ∈ Graph.nodes self →
  ∃ l m pairs,
    AntiGraph.neighbors self n = Ok l
    ∧ AntiGraph.getitem self n = Ok m
    ∧ AntiGraph.adjacency self = Ok pairs
    ∧ dom m = list_to_set l
    ∧ (n, list_to_set l) ∈ pairs
    ∧ (∀ s, (n, s) ∈ pairs → s = list_to_set l).
Proof.
  intros Hn. exists (elements (derived self n)). do 2 eexists.
  split; [by apply neighbors_node|]. split; [by apply getitem_node|].
  split; [apply adjacency_all|]. rewrite list_to_set_elements_L.
  split_and!.
  - apply dom_gset_to_gmap.
  - apply list_elem_of_fmap. by exists n.
  - by intros s (n' & [= <- ->] & _)%list_elem_of_fmap.
Qed.

(** X4. The degree of a node of the store, asked for without a weight key,
    is the number of nodes [neighbors] yields for it and the number of
    entries of [view[n]], whatever the shared record holds. *)
Theorem degree_counts_neighbors (record : gmap string Z) self n :
  n ∈ Graph.nodes self →
  ∃ l m,
    AntiGraph.neighbors self n = Ok l
    ∧ AntiGraph.getitem_in record self n = Ok m
    ∧ AntiGraph.degree_in record self (Graph.NbNode n) None
      = Ok (Graph.DegInt (Z.of_nat (length l)))
    ∧ len m = Z.of_nat (length l).
Proof.
  intros Hn. do 2 eexists.
  split; [by apply neighbors_node|]. split; [by apply getitem_in_node|].
  split.
  - rewrite degree_in_single by done. simpl. do 2 f_equal.
    unfold size, set_size. simpl. lia.
  - by rewrite len_dict_from_keys.
Qed.
End methods_agree.

(* ===================================================================== *)
(** ** Beyond the contract: counting *)
(* ===================================================================== *)

Section degree_facts.
Context {node : Type} `{!EqDecision node, !Countable node}.
Implicit Types (self A B : Graph.t node) (n v : node) (S : list node).
Implicit Types (weight : option string).

Lemma derived_empty_iff self n :
  derived self n = ∅
  ↔ ∀ v, v ∈ Graph.nodes self → v ≠ n → v ∈ SparseSet self n.
Proof.
  split.
  - intros He v Hv Hvn.
    destruct (decide (v ∈ SparseSet self n)) as [|Hout]; [done|].
    exfalso. apply (not_elem_of_empty (C:=gset node) v).
    rewrite <-He. by apply derived_elem.
  - intros Hall. apply set_eq. intros v. rewrite derived_elem, elem_of_empty.
    split; [|done]. intros (Hv & Hout & Hvn). by apply Hout, Hall.
Qed.

Lemma non_edges_empty_iff self n :
  non_edges self n = ∅
  ↔ ∀ v, v ∈ Graph.nodes self → v ≠ n → v ∉ SparseSet self n.
Proof.
  unfold non_edges, AllNodes. split.
  - intros He v Hv Hvn Hin. apply (not_elem_of_empty (C:=gset node) v).
    rewrite <-He.
    rewrite elem_of_difference, elem_of_intersection, elem_of_list_to_set,
      elem_of_singleton. tauto.
  - intros Hall. apply set_eq. intros v.
    rewrite elem_of_difference, elem_of_intersection, elem_of_list_to_set,
      elem_of_singleton, elem_of_empty.
    split; [|done]. intros [[Hin Hv] Hvn]. by apply (Hall v).
Qed.

(** A single identifier that is not a node: [degree] hands back an
    iterator, whose draining fails in [nbunch_iter]. *)
Lemma degree_absent self n weight :
  n ∉ Graph.nodes self →
  AntiGraph.degree self (Graph.NbNode n) weight
  = Ok (Graph.DegIter (Raise (NetworkXError NbunchNotSequence))).
Proof.
  intros Hn%odict_contains_false.
  unfold AntiGraph.degree, AntiGraph.degree_in, Graph.contains,
    Graph.nbunch_iter. rewrite Hn.
  by destruct weight.
Qed.

Lemma filter_contains_nodes self S :
  filter (λ n, odict_contains (Graph.adj self) n = true) S
  = filter (λ n, n ∈ Graph.nodes self) S.
Proof. apply list_filter_iff. intros n. apply odict_contains_keys. Qed.

(** X5. The degree of a node of the store is what is left of the other
    [|V| − 1] nodes once the non-edges stored for it are taken away; it lies
    between 0 and [|V| − 1]. *)
Theorem degree_complement_count self n weight :
  n ∈ Graph.nodes self →
  ∃ d, AntiGraph.degree self (Graph.NbNode n) weight = Ok (Graph.DegInt d)
       ∧ d = Z.of_nat (length (Graph.nodes self)) - 1
             - Z.of_nat (size ((SparseSet self n ∩ AllNodes self) ∖ {[ n ]}))
       ∧ 0 ≤ d ≤ Z.of_nat (length (Graph.nodes self)) - 1.
Proof.
  intros Hn. eexists. split; [by apply degree_single|].
  pose proof (derived_degree_count self n Hn) as Hd.
  pose proof (derived_degree_size self n) as Hs.
  unfold non_edges in Hd. split; [done|]. lia.
Qed.

(** X6. A node of the store has the full degree [|V| − 1] exactly when none
    of the other nodes is stored for it, and degree 0, and no neighbour,
    exactly when all of them are. *)
Theorem degree_extremes self n weight :
  n ∈ Graph.nodes self →
  (AntiGraph.degree self (Graph.NbNode n) weight
   = Ok (Graph.DegInt (Z.of_nat (length (Graph.nodes self)) - 1))
   ↔ ∀ v, v ∈ Graph.nodes self → v ≠ n → v ∉ SparseSet self n)
  ∧ (AntiGraph.degree self (Graph.NbNode n) weight = Ok (Graph.DegInt 0)
     ↔ ∀ v, v ∈ Graph.nodes self → v ≠ n → v ∈ SparseSet self n)
  ∧ (AntiGraph.neighbors self n = Ok []
     ↔ ∀ v, v ∈ Graph.nodes self → v ≠ n → v ∈ SparseSet self n).
Proof.
  intros Hn. rewrite degree_single, neighbors_node by done.
  rewrite <-derived_empty_iff, <-non_edges_empty_iff.
  split_and!.
  - rewrite (derived_degree_count _ _ Hn). split.
    + intros [= Hd]. apply leibniz_equiv, size_empty_iff. lia.
    + intros ->. rewrite size_empty. do 2 f_equal. lia.
  - rewrite derived_degree_size. split.
    + intros [= Hd]. apply leibniz_equiv, size_empty_iff. lia.
    + intros ->. by rewrite size_empty.
  - split.
    + intros [= He]. by apply leibniz_equiv, elements_empty_iff.
    + intros ->. by rewrite elements_empty.
Qed.

(** X7. Only the non-edges between distinct nodes of the store matter.
    Two stores with the same nodes in the same order and the same such
    non-edges give, in any one state of the shared record, the same
    answers to every query, those of [neighbors] up to the order of
    iteration: self-loops and edges to identifiers that are not nodes,
    should the store hold any, are subtracted to no effect. *)
Theorem only_non_edges_matter (record : gmap string Z) A B :
  same_non_edges A B →
  (∀ n, same_up_to_order (AntiGraph.neighbors A n) (AntiGraph.neighbors B n))
  ∧ (∀ n, AntiGraph.getitem_in record A n = AntiGraph.getitem_in record B n)
  ∧ (∀ nbunch weight,
       AntiGraph.degree_in record A nbunch weight
       = AntiGraph.degree_in record B nbunch weight)
  ∧ AntiGraph.adjacency A = AntiGraph.adjacency B.
Proof.
  intros [Hnodes Hsame]. rewrite Forall_forall in Hsame.
  assert (∀ n, n ∈ Graph.nodes A → derived A n = derived B n) as Hder.
  { intros n Hn. rewrite !derived_non_edges_diff, (Hsame n Hn).
    unfold AllNodes. by rewrite Hnodes. }
  assert (∀ n, n ∉ Graph.nodes A →
            odict_lookup (Graph.adj A) n = None
            ∧ odict_lookup (Graph.adj B) n = None) as Hout.
  { intros n Hn. split; apply odict_lookup_None; [done|].
    by rewrite Hnodes in Hn. }
  split_and!.
  - intros n. destruct (decide (n ∈ Graph.nodes A)) as [Hn|Hn].
    + rewrite (neighbors_node A), (neighbors_node B) by (by rewrite <-?Hnodes).
      simpl. by rewrite (Hder n Hn).
    + destruct (Hout n Hn) as [HA HB]. by rewrite !neighbors_None.
  - intros n. destruct (decide (n ∈ Graph.nodes A)) as [Hn|Hn].
    + rewrite (getitem_in_node record A), (getitem_in_node record B)
        by (by rewrite <-?Hnodes).
      by rewrite (Hder n Hn).
    + rewrite (getitem_in_absent record A), (getitem_in_absent record B)
        by (by rewrite <-?Hnodes).
      done.
  - intros [|n|S] weight.
    + rewrite !degree_in_all, <-Hnodes. do 3 f_equal.
      apply list_fmap_ext. intros _ n Hn%list_elem_of_lookup_2.
      by rewrite (Hder n Hn).
    + destruct (decide (n ∈ Graph.nodes A)) as [Hn|Hn].
      * rewrite (degree_in_single record A), (degree_in_single record B)
          by (by rewrite <-?Hnodes).
        by rewrite (Hder n Hn).
      * rewrite (degree_in_absent record A), (degree_in_absent record B)
          by (by rewrite <-?Hnodes).
        done.
    + rewrite !degree_in_bunch, <-Hnodes. do 3 f_equal.
      apply list_fmap_ext.
      intros _ n [Hn _]%list_elem_of_lookup_2%list_elem_of_filter.
      by rewrite (Hder n Hn).
  - rewrite !adjacency_all, <-Hnodes. f_equal.
    apply list_fmap_ext. intros _ n Hn%list_elem_of_lookup_2.
    by rewrite (Hder n Hn).
Qed.

(** X8. Each pair [(n, d)] of a bulk result, over all nodes or over a
    container, carries the number that the single node form returns for
    [n] when called with the same weight key in the same state of the
    shared record. *)
Theorem degree_bulk_pointwise (record : gmap string Z) self S weight :
  ∃ nds_all nds_S,
    AntiGraph.degree_in record self Graph.NbNone weight
    = Ok (Graph.DegIter (Ok nds_all))
    ∧ AntiGraph.degree_in record self (Graph.NbBunch S) weight
      = Ok (Graph.DegIter (Ok nds_S))
    ∧ ∀ n d, (n, d) ∈ nds_all ∨ (n, d) ∈ nds_S →
        AntiGraph.degree_in record self (Graph.NbNode n) weight
        = Ok (Graph.DegInt d).
Proof.
  do 2 eexists. split; [apply degree_in_all|]. split; [apply degree_in_bunch|].
  intros n d [(n' & [= <- ->] & Hn)%list_elem_of_fmap
             |(n' & [= <- ->] & Hn)%list_elem_of_fmap].
  - by apply degree_in_single.
  - apply list_elem_of_filter in Hn as [Hn _]. by apply degree_in_single.
Qed.

(** X10. The bulk form over a container never raises: members that are
    not nodes of the store are passed over, the others get their pair, in
    the order of the container, repeated if the member is; the result for
    two containers one after the other is the two results one after the
    other. *)
Theorem degree_bunch_skips_unknown self (S1 S2 : list node) weight :
  ∃ nds1 nds2,
    AntiGraph.degree self (Graph.NbBunch S1) weight
    = Ok (Graph.DegIter (Ok nds1))
    ∧ AntiGraph.degree self (Graph.NbBunch S2) weight
      = Ok (Graph.DegIter (Ok nds2))
    ∧ AntiGraph.degree self (Graph.NbBunch (S1 ++ S2)) weight
      = Ok (Graph.DegIter (Ok (nds1 ++ nds2)))
    ∧ nds1.*1 = filter (λ n, n ∈ Graph.nodes self) S1.
Proof.
  do 2 eexists. rewrite !degree_bunch, !filter_contains_nodes.
  split_and!; [done | done | |].
  - by rewrite filter_app, fmap_app.
  - rewrite <-list_fmap_compose. apply list_fmap_id.
Qed.

(** X11. Recording more non-edges can only take neighbours away: if [B]
    has the nodes of [A] and stores at least what [A] stores, then what
    [neighbors(n)] yields on [B] it yields on [A], and the degree on [B] is
    at most the degree on [A]. *)
Theorem more_non_edges_fewer_neighbors A B n weight :
  Graph.nodes A = Graph.nodes B →
  more_non_edges A B →
  n ∈ Graph.nodes A →
  ∃ lA lB dA dB,
    AntiGraph.neighbors A n = Ok lA
    ∧ AntiGraph.neighbors B n = Ok lB
    ∧ lB ⊆ lA
    ∧ AntiGraph.degree A (Graph.NbNode n) weight = Ok (Graph.DegInt dA)
    ∧ AntiGraph.degree B (Graph.NbNode n) weight = Ok (Graph.DegInt dB)
    ∧ dB ≤ dA.
Proof.
  intros Hnodes Hmore Hn. unfold more_non_edges in Hmore.
  rewrite Forall_forall in Hmore. specialize (Hmore n Hn).
  assert (n ∈ Graph.nodes B) as HnB by (by rewrite <-Hnodes).
  assert (derived B n ⊆ derived A n) as Hsub.
  { intros v. rewrite !derived_elem, Hnodes.
    intros (Hv & Hout & Hvn). split_and!; [done | | done].
    intros Hin. by apply Hout, Hmore. }
  do 4 eexists.
  split; [by apply neighbors_node|]. split; [by apply neighbors_node|].
  split; [|split; [by apply degree_single|split; [by apply degree_single|]]].
  - intros v. rewrite !elem_of_elements. apply Hsub.
  - rewrite !derived_degree_size. apply subseteq_size in Hsub. lia.
Qed.
End degree_facts.

(* ===================================================================== *)
(** ** Beyond the contract: degree sums *)
(* ===================================================================== *)

Section counting.
Context {A : Type} (R : A → A → Prop) `{!∀ x y, Decision (R x y)}.

(** The number of members of [l] related to [x]. *)
Local Abbreviation related x l := (Z.of_nat (length (filter (R x) l))).

Lemma related_cons x a l :
  related x (a :: l) = (if decide (R x a) then 1 else 0) + related x l.
Proof.
  destruct (decide (R x a)) as [Hr|Hr].
  - rewrite filter_cons_True by done. rewrite length_cons. lia.
  - rewrite filter_cons_False by done. lia.
Qed.

Lemma sum_related_cons a l l' :
  Py.sum ((λ x, related x (a :: l)) <$> l')
  = Z.of_nat (length (filter (λ x, R x a) l'))
    + Py.sum ((λ x, related x l) <$> l').
Proof.
  unfold Py.sum. induction l' as [|x l' IH]; [done|].
  rewrite !fmap_cons. cbn [foldr]. rewrite IH, related_cons.
  destruct (decide (R x a)) as [Hr|Hr].
  - rewrite filter_cons_True by done. rewrite length_cons. lia.
  - rewrite filter_cons_False by done. lia.
Qed.

Lemma related_converse a l :
  (∀ x, x ∈ l → R a x ↔ R x a) →
  related a l = Z.of_nat (length (filter (λ x, R x a) l)).
Proof.
  induction l as [|x l IH]; intros Hsym; [done|].
  assert (R a x ↔ R x a) as Hx by apply Hsym, list_elem_of_here.
  assert (related a l = Z.of_nat (length (filter (λ x, R x a) l))) as IH'.
  { apply IH. intros y Hy. by apply Hsym, list_elem_of_further. }
  rewrite related_cons. destruct (decide (R a x)) as [Hr|Hr].
  - rewrite filter_cons_True by tauto. rewrite length_cons. lia.
  - rewrite filter_cons_False by tauto. lia.
Qed.

(** Counting the pairs of an irreflexive, symmetric relation from both
    ends counts each twice. *)
Lemma handshake (l : list A) :
  (∀ x, ¬ R x x) →
  (∀ x y, x ∈ l → y ∈ l → R x y → R y x) →
  ∃ k, 0 ≤ k ∧ Py.sum ((λ x, related x l) <$> l) = 2 * k.
Proof.
  intros Hirr. induction l as [|a l IH]; intros Hsym.
  - exists 0. by split.
  - destruct IH as (k & Hk & IH).
    { intros x y Hx Hy. apply Hsym; by apply list_elem_of_further. }
    exists (related a l + k). split; [lia|].
    rewrite fmap_cons. unfold Py.sum in *. cbn [foldr].
    fold (Py.sum ((λ x, related x (a :: l)) <$> l)).
    rewrite sum_related_cons, related_cons, decide_False by apply Hirr.
    rewrite <-related_converse.
    + unfold Py.sum. rewrite IH. lia.
    + intros x Hx. split; apply Hsym;
        auto using list_elem_of_here, list_elem_of_further.
Qed.
End counting.

Section sums.
Context {node : Type} `{!EqDecision node, !Countable node}.
Implicit Types (self A D G : Graph.t node) (n v : node) (S : list node).
Implicit Types (weight : option string).

Lemma size_derived_filter self n :
  size (derived self n)
  = length (filter (λ v, v ∈ derived self n) (Graph.nodes self)).
Proof.
  rewrite <-(size_list_to_set (C:=gset node)).
  - f_equal. apply set_eq. intros v.
    rewrite elem_of_list_to_set, list_elem_of_filter, derived_elem. tauto.
  - apply NoDup_filter, odict_keys_NoDup.
Qed.

Lemma sum_degrees_all self weight :
  sum_degrees (AntiGraph.degree self Graph.NbNone weight)
  = Some (Py.sum (derived_degree self <$> Graph.nodes self)).
Proof.
  rewrite degree_all. simpl. by rewrite <-list_fmap_compose.
Qed.

Lemma sum_minus (c : Z) (f : node → Z) (l : list node) :
  Py.sum ((λ n, c - f n) <$> l) = Z.of_nat (length l) * c - Py.sum (f <$> l).
Proof.
  unfold Py.sum. induction l as [|x l IH]; [done|].
  rewrite !fmap_cons, length_cons. cbn [foldr]. rewrite IH. lia.
Qed.

(** X12. In a store that records its edges in both directions the degrees
    that [degree()] reports add up to an even number, each edge of the
    view being counted at both ends. *)
Theorem degree_sum_even self weight :
  symmetric_store self →
  ∃ k, 0 ≤ k
       ∧ sum_degrees (AntiGraph.degree self Graph.NbNone weight) = Some (2 * k).
Proof.
  intros Hsym. unfold symmetric_store in Hsym.
  destruct (@handshake node (λ n v, v ∈ derived self n)
              (λ n v, decide (v ∈ derived self n)) (Graph.nodes self))
    as (k & Hk & Hsum).
  - intros n. apply not_in_derived.
  - intros n v Hn Hv. rewrite !derived_elem.
    intros (_ & Hout & Hne). split_and!; [done | | done].
    intros Hin. apply Hout.
    rewrite Forall_forall in Hsym. specialize (Hsym v Hv).
    rewrite Forall_forall in Hsym. by apply Hsym.
  - exists k. split; [done|]. rewrite sum_degrees_all, <-Hsum. do 2 f_equal.
    apply list_fmap_ext. intros _ n _. simpl.
    by rewrite derived_degree_size, size_derived_filter.
Qed.

(** X13. Over a store of [N] nodes, the degrees that [degree()] reports and
    the numbers of non-edges stored between nodes add up to [N (N − 1)]:
    every ordered pair of distinct nodes is an edge of the view or a stored
    non-edge. *)
Theorem degree_sum_complement self weight :
  ∃ total,
    sum_degrees (AntiGraph.degree self Graph.NbNone weight) = Some total
    ∧ total
      + Py.sum ((λ n, Z.of_nat
                        (size ((SparseSet self n ∩ AllNodes self) ∖ {[ n ]})))
                <$> Graph.nodes self)
      = Z.of_nat (length (Graph.nodes self))
        * (Z.of_nat (length (Graph.nodes self)) - 1).
Proof.
  eexists. split; [apply sum_degrees_all|].
  set (N := Z.of_nat (length (Graph.nodes self))).
  rewrite (list_fmap_ext (derived_degree self)
             (λ n, (N - 1) - Z.of_nat (size (non_edges self n)))).
  - rewrite sum_minus. fold N. unfold non_edges. lia.
  - intros _ n Hn%list_elem_of_lookup_2. by apply derived_degree_count.
Qed.

(** *** The view and the dense graph *)

Lemma dense_degree_bunch G S :
  simple G →
  Graph.degree G (Graph.NbBunch S)
  = Ok (Graph.DegIter
          (Ok ((λ n, (n, Z.of_nat (size (SparseSet G n))))
               <$> filter (λ n, n ∈ Graph.nodes G) S))).
Proof.
  intros HG. unfold Graph.degree. simpl. rewrite filter_contains_nodes.
  rewrite (for_each_Ok _ (λ n, (n, Z.of_nat (size (SparseSet G n))))); [done|].
  intros n [[nbrs Hn]%node_lookup _]%list_elem_of_filter.
  rewrite (odict_getitem_Some _ _ _ Hn). simpl.
  by rewrite (stored_degree_simple _ _ _ HG Hn).
Qed.

(** X14. If [A] stores exactly the non-edges of a simple graph [G] on the
    same nodes, the view on [A] shows the adjacency of [G]: at every node,
    [neighbors], [view[n]] and [adjacency()] give the set of neighbours
    stored in [G]. *)
Theorem view_shows_dense_graph G A n :
  Graph.nodes A ≡ₚ Graph.nodes G →
  simple G →
  stores_non_edges G A →
  n ∈ Graph.nodes G →
  ∃ nbrs l m pairs,
    odict_lookup (Graph.adj G) n = Some nbrs
    ∧ AntiGraph.neighbors A n = Ok l
    ∧ AntiGraph.getitem A n = Ok m
    ∧ AntiGraph.adjacency A = Ok pairs
    ∧ list_to_set l = dom nbrs
    ∧ dom m = dom nbrs
    ∧ (n, dom nbrs) ∈ pairs.
Proof.
  intros HP HG HA Hn. destruct (node_lookup _ _ Hn) as [nbrs Hnbrs].
  assert (n ∈ Graph.nodes A) as HnA by (by rewrite HP).
  assert (derived A n = dom nbrs) as Hd.
  { rewrite (derived_non_edges G A) by done. unfold SparseSet. by rewrite Hnbrs. }
  exists nbrs. do 3 eexists. split; [done|].
  split; [by apply neighbors_node|]. split; [by apply getitem_node|].
  split; [apply adjacency_all|]. split_and!.
  - by rewrite list_to_set_elements_L.
  - unfold dict_from_keys. by rewrite dom_gset_to_gmap.
  - apply list_elem_of_fmap. exists n. by rewrite Hd.
Qed.

(** X15. Under the same conditions the bulk form over any container gives
    on the view the pairs that the degree of the host class gives on [G],
    as the notebook checks through their sums. *)
Theorem degree_subset_matches_dense G A S weight :
  Graph.nodes A ≡ₚ Graph.nodes G →
  simple G →
  stores_non_edges G A →
  ∃ nds,
    AntiGraph.degree A (Graph.NbBunch S) weight = Ok (Graph.DegIter (Ok nds))
    ∧ Graph.degree G (Graph.NbBunch S) = Ok (Graph.DegIter (Ok nds))
    ∧ sum_degrees (AntiGraph.degree A (Graph.NbBunch S) weight)
      = sum_degrees (Graph.degree G (Graph.NbBunch S)).
Proof.
  intros HP HG HA.
  assert (AntiGraph.degree A (Graph.NbBunch S) weight
          = Graph.degree G (Graph.NbBunch S)) as Heq.
  { rewrite degree_bunch, dense_degree_bunch, filter_contains_nodes by done.
    rewrite (list_filter_iff _ (λ n, n ∈ Graph.nodes G));
      [|intros v; by rewrite HP].
    do 3 f_equal. apply list_fmap_ext.
    intros _ n [Hn _]%list_elem_of_lookup_2%list_elem_of_filter.
    by rewrite derived_degree_size, (derived_non_edges G A). }
  eexists. rewrite Heq. split; [by apply dense_degree_bunch|].
  split; [by apply dense_degree_bunch | done].
Qed.

(** X16. Complementing twice gives the store back. If [D] stores at each
    node what the view on [A] derives there, the view on [D] derives the
    non-edges [A] stores between its nodes; when [A] stores nothing else,
    that is what [A] stores. *)
Theorem view_of_view_is_store D A n :
  Graph.nodes D ≡ₚ Graph.nodes A →
  materialises D A →
  n ∈ Graph.nodes A →
  ∃ l, AntiGraph.neighbors D n = Ok l
       ∧ list_to_set l = (SparseSet A n ∩ AllNodes A) ∖ {[ n ]}
       ∧ (SparseSet A n ⊆ AllNodes A ∖ {[ n ]} → list_to_set l = SparseSet A n).
Proof.
  intros HP HD Hn. unfold materialises in HD. rewrite Forall_forall in HD.
  specialize (HD n Hn).
  assert (n ∈ Graph.nodes D) as HnD by (by rewrite HP).
  assert (derived D n = (SparseSet A n ∩ AllNodes A) ∖ {[ n ]}) as Hd.
  { apply set_eq. intros v.
    rewrite derived_elem, HD, derived_elem, HP.
    rewrite elem_of_difference, elem_of_intersection, elem_of_singleton.
    unfold AllNodes. rewrite elem_of_list_to_set.
    destruct (decide (v ∈ SparseSet A n)); tauto. }
  eexists. split; [by apply neighbors_node|].
  rewrite list_to_set_elements_L. split; [done|].
  intros Hclean. rewrite Hd. apply set_eq. intros v.
  rewrite elem_of_difference, elem_of_intersection, elem_of_singleton.
  split; [tauto|]. intros Hv. specialize (Hclean v Hv).
  rewrite elem_of_difference, elem_of_singleton in Hclean. tauto.
Qed.
End sums.

(* ===================================================================== *)
(** ** The scenario, once more *)
(* ===================================================================== *)

Lemma scenario_symmetric : symmetric_store scenario.
Proof. apply (bool_decide_unpack _); by vm_compute. Defined.

Lemma scenario_noisy_same : same_non_edges scenario_noisy scenario.
Proof. apply (bool_decide_unpack _); by vm_compute. Defined.

Lemma scenario_sparser_more : more_non_edges scenario scenario_sparser.
Proof. apply (bool_decide_unpack _); by vm_compute. Defined.

Lemma scenario_dense_materialises : materialises scenario_dense scenario.
Proof. apply (bool_decide_unpack _); by vm_compute. Defined.

Lemma scenario_node_3 : 3 ∈ Graph.nodes scenario.
Proof. apply (bool_decide_unpack _); by vm_compute. Defined.

Lemma neighbors_closed_witness :
  2 ≠ 0
  ∧ 2 ∈ Graph.nodes scenario
  ∧ (∃ l', AntiGraph.neighbors scenario 2 = Ok l')
  ∧ (∃ m, AntiGraph.getitem scenario 2 = Ok m).
Proof.
  apply (neighbors_closed scenario 0 [3; 2]); [by vm_compute|].
  apply (bool_decide_unpack _); by vm_compute.
Defined.

Lemma neighbors_symmetric_witness :
  ∃ ln lv, AntiGraph.neighbors scenario 2 = Ok ln
           ∧ AntiGraph.neighbors scenario 3 = Ok lv
           ∧ (3 ∈ ln ↔ 2 ∈ lv).
Proof.
  apply (neighbors_symmetric scenario 2 3);
    [exact scenario_symmetric | exact scenario_node_2 | exact scenario_node_3].
Defined.

Lemma neighbourhood_views_agree_witness :
  ∃ l m pairs,
    AntiGraph.neighbors scenario 2 = Ok l
    ∧ AntiGraph.getitem scenario 2 = Ok m
    ∧ AntiGraph.adjacency scenario = Ok pairs
    ∧ dom m = list_to_set l
    ∧ (2, list_to_set l) ∈ pairs
    ∧ (∀ s, (2, s) ∈ pairs → s = list_to_set l).
Proof. apply (neighbourhood_views_agree scenario 2), scenario_node_2. Defined.

Lemma degree_counts_neighbors_witness :
  ∃ l m,
    AntiGraph.neighbors scenario 2 = Ok l
    ∧ AntiGraph.getitem_in {[ "weight" := 7 ]} scenario 2 = Ok m
    ∧ AntiGraph.degree_in {[ "weight" := 7 ]} scenario (Graph.NbNode 2) None
      = Ok (Graph.DegInt (Z.of_nat (length l)))
    ∧ len m = Z.of_nat (length l).
Proof.
  apply (degree_counts_neighbors {[ "weight" := 7 ]} scenario 2),
    scenario_node_2.
Defined.

Lemma degree_complement_count_witness :
  ∃ d, AntiGraph.degree scenario (Graph.NbNode 0) None = Ok (Graph.DegInt d)
       ∧ d = Z.of_nat (length (Graph.nodes scenario)) - 1
             - Z.of_nat (size ((SparseSet scenario 0 ∩ AllNodes scenario) ∖ {[ 0 ]}))
       ∧ 0 ≤ d ≤ Z.of_nat (length (Graph.nodes scenario)) - 1.
Proof. apply (degree_complement_count scenario 0 None), scenario_node_0. Defined.

(** Node 2 of the scenario has nothing stored: its degree is the full 3. *)
Lemma degree_extremes_witness :
  AntiGraph.degree scenario (Graph.NbNode 2) None
  = Ok (Graph.DegInt (Z.of_nat (length (Graph.nodes scenario)) - 1))
  ↔ ∀ v, v ∈ Graph.nodes scenario → v ≠ 2 → v ∉ SparseSet scenario 2.
Proof. apply (degree_extremes scenario 2 None), scenario_node_2. Defined.

Lemma only_non_edges_matter_witness :
  (∀ n, same_up_to_order (AntiGraph.neighbors scenario_noisy n)
                          (AntiGraph.neighbors scenario n))
  ∧ (∀ n, AntiGraph.getitem_in {[ "weight" := 7 ]} scenario_noisy n
          = AntiGraph.getitem_in {[ "weight" := 7 ]} scenario n)
  ∧ (∀ nbunch weight,
       AntiGraph.degree_in {[ "weight" := 7 ]} scenario_noisy nbunch weight
       = AntiGraph.degree_in {[ "weight" := 7 ]} scenario nbunch weight)
  ∧ AntiGraph.adjacency scenario_noisy = AntiGraph.adjacency scenario.
Proof.
  apply (only_non_edges_matter {[ "weight" := 7 ]} scenario_noisy scenario),
    scenario_noisy_same.
Defined.

Lemma more_non_edges_fewer_neighbors_witness :
  ∃ lA lB dA dB,
    AntiGraph.neighbors scenario 2 = Ok lA
    ∧ AntiGraph.neighbors scenario_sparser 2 = Ok lB
    ∧ lB ⊆ lA
    ∧ AntiGraph.degree scenario (Graph.NbNode 2) None = Ok (Graph.DegInt dA)
    ∧ AntiGraph.degree scenario_sparser (Graph.NbNode 2) None
      = Ok (Graph.DegInt dB)
    ∧ dB ≤ dA.
Proof.
  apply (more_non_edges_fewer_neighbors scenario scenario_sparser 2 None);
    [reflexivity | exact scenario_sparser_more | exact scenario_node_2].
Defined.

Lemma degree_sum_even_witness :
  ∃ k, 0 ≤ k
       ∧ sum_degrees (AntiGraph.degree scenario Graph.NbNone None) = Some (2 * k).
Proof. apply (degree_sum_even scenario None), scenario_symmetric. Defined.

Lemma view_shows_dense_graph_witness :
  ∃ nbrs l m pairs,
    odict_lookup (Graph.adj scenario_dense) 2 = Some nbrs
    ∧ AntiGraph.neighbors scenario 2 = Ok l
    ∧ AntiGraph.getitem scenario 2 = Ok m
    ∧ AntiGraph.adjacency scenario = Ok pairs
    ∧ list_to_set l = dom nbrs
    ∧ dom m = dom nbrs
    ∧ (2, dom nbrs) ∈ pairs.
Proof.
  apply (view_shows_dense_graph scenario_dense scenario 2);
    [reflexivity | exact scenario_dense_simple
    | exact scenario_stores_non_edges | exact scenario_node_2].
Defined.

(** The container of the notebook's last check, nodes 1 to 3, with an
    identifier that is not a node thrown in. *)
Lemma degree_subset_matches_dense_witness :
  ∃ nds,
    AntiGraph.degree scenario (Graph.NbBunch [1; 7; 2; 3]) None
    = Ok (Graph.DegIter (Ok nds))
    ∧ Graph.degree scenario_dense (Graph.NbBunch [1; 7; 2; 3])
      = Ok (Graph.DegIter (Ok nds))
    ∧ sum_degrees (AntiGraph.degree scenario (Graph.NbBunch [1; 7; 2; 3]) None)
      = sum_degrees (Graph.degree scenario_dense (Graph.NbBunch [1; 7; 2; 3])).
Proof.
  apply (degree_subset_matches_dense scenario_dense scenario [1; 7; 2; 3] None);
    [reflexivity | exact scenario_dense_simple | exact scenario_stores_non_edges].
Defined.

Lemma view_of_view_is_store_witness :
  ∃ l, AntiGraph.neighbors scenario_dense 0 = Ok l
       ∧ list_to_set l = (SparseSet scenario 0 ∩ AllNodes scenario) ∖ {[ 0 ]}
       ∧ (SparseSet scenario 0 ⊆ AllNodes scenario ∖ {[ 0 ]} →
          list_to_set l = SparseSet scenario 0).
Proof.
  apply (view_of_view_is_store scenario_dense scenario 0);
    [reflexivity | exact scenario_dense_materialises | exact scenario_node_0].
Defined.

Section alignment.
Context {node : Type} `{!EqDecision node, !Countable node}.

(** X17. [degree()] and [adjacency()] walk the store in step: the pairs of
    the first are the pairs of the second with each set replaced by its
    size, so a degree can be read off the adjacency pair at the same
    position. *)
Theorem degree_follows_adjacency (self : Graph.t node) (weight : option string) :
  ∃ nds pairs,
    AntiGraph.degree self Graph.NbNone weight = Ok (Graph.DegIter (Ok nds))
    ∧ AntiGraph.adjacency self = Ok pairs
    ∧ nds = (λ '(n, s), (n, Z.of_nat (size s))) <$> pairs
    ∧ nds.*1 = Graph.nodes self.
Proof.
  do 2 eexists. split; [apply degree_all|]. split; [apply adjacency_all|].
  rewrite <-!list_fmap_compose. split.
  - apply list_fmap_ext. intros _ n _. simpl. by rewrite derived_degree_size.
  - apply list_fmap_id.
Qed.
End alignment.

(* ===================================================================== *)
(** ** The shared record, written to *)
(* ===================================================================== *)

(** C3. What [degree] returns under a weight key is the unweighted degree
    times what the shared record answers for the key. After the write
    [view[2][0]['weight'] = 7] on the scenario, node 2, of degree 3, has
    degree 21 under ['weight'], and the degrees of all nodes sum to 10
    without a key and to 70 with it. *)
Theorem degree_weight_after_write :
  (∀ (node : Type) `{!EqDecision node, !Countable node}
     (record : gmap string Z) (self : Graph.t node) (n : node) (k : string),
     n ∈ Graph.nodes self →
     ∃ d, AntiGraph.degree_in record self (Graph.NbNode n) None
          = Ok (Graph.DegInt d)
          ∧ AntiGraph.degree_in record self (Graph.NbNode n) (Some k)
            = Ok (Graph.DegInt (d * dict_get record k 1)))
  ∧ ∃ record',
      AntiGraph.view_setitem AntiGraph.all_edge_dict scenario 2 0 "weight" 7
      = Ok record'
      ∧ AntiGraph.degree_in record' scenario (Graph.NbNode 2) None
        = Ok (Graph.DegInt 3)
      ∧ AntiGraph.degree_in record' scenario (Graph.NbNode 2) (Some "weight")
        = Ok (Graph.DegInt 21)
      ∧ sum_degrees (AntiGraph.degree_in record' scenario Graph.NbNone None)
        = Some 10
      ∧ sum_degrees
          (AntiGraph.degree_in record' scenario Graph.NbNone (Some "weight"))
        = Some 70.
Proof.
  split.
  - intros node ?? record self n k Hn. eexists.
    rewrite !degree_in_single by done. simpl. split; [done|].
    do 2 f_equal. lia.
  - eexists. split; [by vm_compute|]. by vm_compute.
Qed.

(** C9. After the write [view[2][0]['weight'] = 7] on the scenario, every
    entry of [view[2]], and of the view of any other node, carries weight
    7: the entries are the one record that was written to. *)
Theorem getitem_after_write :
  ∃ record' m2 m0,
    AntiGraph.view_setitem AntiGraph.all_edge_dict scenario 2 0 "weight" 7
    = Ok record'
    ∧ AntiGraph.getitem_in record' scenario 2 = Ok m2
    ∧ AntiGraph.getitem_in record' scenario 0 = Ok m0
    ∧ dom m2 = {[ 0; 1; 3 ]}
    ∧ m2 !! 0 = Some {[ "weight" := 7 ]}
    ∧ m2 !! 1 = Some {[ "weight" := 7 ]}
    ∧ m2 !! 3 = Some {[ "weight" := 7 ]}
    ∧ m0 !! 3 = Some {[ "weight" := 7 ]}.
Proof.
  do 3 eexists. split; [by vm_compute|].
  split; [by vm_compute|]. split; [by vm_compute|]. by vm_compute.
Qed.
